(** * Kilo-Code client manager: enable / disable of MCP server entries

    A shallow embedding of [src/mcpm/clients/managers/kilocode.py]
    (class [KiloCodeManager]) and the properties of its constructor and of
    [disable_server], [enable_server] and [is_server_disabled].

    The configuration document is what [json.load] returns: a Python [dict]
    with string keys ([Dict[str, Any]] in the source) whose values are
    arbitrary JSON values.  Python is dynamically typed, so the operations
    the methods apply to those values ([in], subscription, item assignment,
    [del], [.get]) are modelled with the exception they raise on a value
    of the wrong kind. *)

From Stdlib Require Import Ascii String.
From stdpp Require Import gmap strings list fin_maps.

Open Scope string_scope.

(** ** JSON values as Python objects *)

(** A [dict] is a finite map; the order of its keys, which Python keeps
    and no method here looks at, is not represented. *)
#[local] Unset Elimination Schemes.
Inductive json : Type :=
  | JNull
  | JBool (b : bool)
  | JInt (z : Z)
  | JFloat (literal : string)
  | JStr (s : string)
  | JArr (items : list json)
  | JObj (fields : gmap string json).
#[local] Set Elimination Schemes.

(** The annotation [Dict[str, Any]] of a loaded document. *)
Abbreviation config := (gmap string json).

(** ** Exceptions and results *)

Inductive exn : Type :=
  | TypeError
  | KeyError
  | AttributeError
  | OSError.

Inductive result (A : Type) : Type :=
  | Return (a : A)
  | Raise (e : exn).
Arguments Return {A} a.
Arguments Raise {A} e.

Definition result_bind {A B} (r : result A) (k : A → result B) : result B :=
  match r with
  | Return a => k a
  | Raise e => Raise e
  end.

(** ** The Python operations the manager uses *)

Module Py.

(** [needle in haystack] on two [str]: substring test. *)
Fixpoint str_contains (needle haystack : string) : bool :=
  String.prefix needle haystack
  || match haystack with
     | EmptyString => false
     | String _ rest => str_contains needle rest
     end.

(** [x == v] for a [str] x: only an equal [str] compares equal. *)
Definition str_eq (x : string) (v : json) : bool :=
  match v with
  | JStr s => bool_decide (x = s)
  | _ => false
  end.

(** [x in v] for a [str] x. *)
Definition contains (x : string) (v : json) : result bool :=
  match v with
  | JObj fields => 
    match fields !! x with
    | Some _ => Return true
    | None => Return false
    end
  | JArr items => Return (existsb (str_eq x) items)
  | JStr s => Return (str_contains x s)
  | JNull | JBool _ | JInt _ | JFloat _ => Raise TypeError
  end.

(** [v[x]] for a [str] x. *)
Definition getitem (v : json) (x : string) : result json :=
  match v with
  | JObj fields =>
      match fields !! x with
      | Some item => Return item
      | None => Raise KeyError
      end
  | _ => Raise TypeError
  end.

(** [v[x] = y] for a [str] x; the result is the object after the
    assignment. *)
Definition setitem (v : json) (x : string) (y : json) : result json :=
  match v with
  | JObj fields => Return (JObj (<[x := y]> fields))
  | _ => Raise TypeError
  end.

(** [del v[x]] for a [str] x; the result is the object after the
    deletion. *)
Definition delitem (v : json) (x : string) : result json :=
  match v with
  | JObj fields =>
      match fields !! x with
      | Some _ => Return (JObj (delete x fields))
      | None => Raise KeyError
      end
  | _ => Raise TypeError
  end.

(** [v.get(x, default)]: only a [dict] has the method. *)
Definition get (v : json) (x : string) (default : json) : result json :=
  match v with
  | JObj fields =>
      match fields !! x with
      | Some item => Return item
      | None => Return default
      end
  | _ => Raise AttributeError
  end.

(** [v is True]: identity with the singleton [True]; [1] and ["true"]
    are other objects. *)
Definition is_True (v : json) : bool :=
  match v with
  | JBool true => true
  | _ => false
  end.

(** [k in d] and [d[k]] on the loaded document, which is a [dict]. *)
Definition dict_contains (d : config) (k : string) : bool :=
  match d !! k with
  | Some _ => true
  | None => false
  end.

Definition dict_getitem (d : config) (k : string) : result json :=
  match d !! k with
  | Some item => Return item
  | None => Raise KeyError
  end.

End Py.

(** ** The inherited base: [JSONClientManager]

    [KiloCodeManager] subclasses [JSONClientManager] and calls the
    attribute [configure_key_name] and the methods [_load_config] and
    [_save_config] it inherits.  The methods below are written against
    that interface: [W] is the state of the outside world the base reads
    and writes (the file at [config_path]). *)

Class JSONClientManager (W : Type) : Type := {
  configure_key_name : string;
  _load_config : W → config;
  _save_config : config → W → result bool * W;
}.

(** ** Calls: the world, the warnings logged, and exceptions *)

Record state (W : Type) : Type := State {
  world : W;
  log : list string;
}.
Arguments State {W} world log.
Arguments world {W} s.
Arguments log {W} s.

Definition M (W A : Type) : Type := state W → result A * state W.

#[export] Instance M_ret {W} : MRet (M W) :=
  λ A a st, (Return a, st).

#[export] Instance M_bind {W} : MBind (M W) :=
  λ A B k m st,
    match m st with
    | (Return a, st') => k a st'
    | (Raise e, st') => (Raise e, st')
    end.

#[export] Instance result_ret : MRet result := @Return.
#[export] Instance result_bind_inst : MBind result :=
  λ A B k r, result_bind r k.

(** A computation that only inspects Python values. *)
Definition lift {W A} (r : result A) : M W A :=
  λ st, (r, st).

(** [logger.warning(msg)] *)
Definition logger_warning {W} (msg : string) : M W unit :=
  λ st, (Return tt, State (world st) (log st ++ [msg])).

(** ** [KiloCodeManager]: the three methods *)

Section Methods.
Context {W : Type} `{JSONClientManager W}.

(** [self._load_config()] *)
Definition load_config : M W config :=
  λ st, (Return (_load_config (world st)), st).

(** [self._save_config(config)] *)
Definition save_config (cfg : config) : M W bool :=
  λ st, let (r, w') := _save_config cfg (world st) in (r, State w' (log st)).

(** The guard of [disable_server] and [enable_server]:
    [self.configure_key_name not in config
       or server_name not in config[self.configure_key_name]]. *)
Definition server_not_found (cfg : config) (server_name : string) : result bool :=
  if negb (Py.dict_contains cfg configure_key_name) then Return true
  else
    servers ← Py.dict_getitem cfg configure_key_name;
    found ← Py.contains server_name servers;
    Return (negb found).

(** The not-found condition of the two mutating methods: the servers key
    is absent from the document, or the name is not a key of the servers
    mapping. *)
Definition not_listed (cfg : config) (server_name : string) : Prop :=
  cfg !! configure_key_name = None
  ∨ ∃ servers, cfg !! configure_key_name = Some (JObj servers)
               ∧ servers !! server_name = None.

(** [config[self.configure_key_name][server_name]]: the entry object. *)
Definition server_entry (cfg : config) (server_name : string) : result json :=
  servers ← Py.dict_getitem cfg configure_key_name;
  Py.getitem servers server_name.

(** Python mutates the entry object in place, inside the loaded
    document.  Here the mutated entry is put back where it was read:
    the document afterwards, with [entry'] at
    [config[self.configure_key_name][server_name]]. *)
Definition with_server_entry (cfg : config) (server_name : string)
    (entry' : json) : result config :=
  servers ← Py.dict_getitem cfg configure_key_name;
  servers' ← Py.setitem servers server_name entry';
  Return (<[configure_key_name := servers']> cfg).

(** [config[self.configure_key_name][server_name]["disabled"] = True] *)
Definition set_disabled (cfg : config) (server_name : string) : result config :=
  entry ← server_entry cfg server_name;
  entry' ← Py.setitem entry "disabled" (JBool true);
  with_server_entry cfg server_name entry'.

(** [del config[self.configure_key_name][server_name]["disabled"]] *)
Definition del_disabled (cfg : config) (server_name : string) : result config :=
  entry ← server_entry cfg server_name;
  entry' ← Py.delitem entry "disabled";
  with_server_entry cfg server_name entry'.

Definition disable_server (server_name : string) : M W bool :=
  cfg ← load_config;
  not_found ← lift (server_not_found cfg server_name);
  if not_found : bool then
    logger_warning ("Server '" +:+ server_name +:+ "' not found in active servers");;
    mret false
  else
    cfg' ← lift (set_disabled cfg server_name);
    save_config cfg'.

Definition enable_server (server_name : string) : M W bool :=
  cfg ← load_config;
  not_found ← lift (server_not_found cfg server_name);
  if not_found : bool then
    logger_warning ("Server '" +:+ server_name +:+ "' not found in configuration");;
    mret false
  else
    has_marker ← lift (entry ← server_entry cfg server_name;
                       Py.contains "disabled" entry);
    if negb has_marker then
      logger_warning ("Server '" +:+ server_name +:+ "' is not disabled");;
      mret true
    else
      cfg' ← lift (del_disabled cfg server_name);
      save_config cfg'.

Definition is_server_disabled (server_name : string) : M W bool :=
  cfg ← load_config;
  lift (
    if negb (Py.dict_contains cfg configure_key_name) then Return false
    else
      servers ← Py.dict_getitem cfg configure_key_name;
      found ← Py.contains server_name servers;
      if negb found then Return false
      else
        entry ← Py.getitem servers server_name;
        marker ← Py.get entry "disabled" (JBool false);
        Return (Py.is_True marker)).

End Methods.

(** ** The data model of the configuration file

    [{ "mcpServers": { <server_name>: <server_entry> } }]: the value under
    the servers key, when the key is there, is a mapping, and so is every
    server entry in it. *)

Definition is_mapping (v : json) : bool :=
  match v with
  | JObj _ => true
  | _ => false
  end.

Definition data_model (key : string) (cfg : config) : bool :=
  match cfg !! key with
  | None => true
  | Some (JObj servers) =>
      forallb (λ kv : string * json, is_mapping kv.2) (map_to_list servers)
  | Some _ => false
  end.

(** The states of a server entry with respect to the feature. *)
Inductive marker_state : Type :=
  | Active        (* no [disabled] key *)
  | Disabled      (* [disabled: true] *)
  | OtherMarker.  (* a [disabled] key with any other value *)

Definition entry_state (entry : gmap string json) : marker_state :=
  match entry !! "disabled" with
  | None => Active
  | Some (JBool true) => Disabled
  | Some _ => OtherMarker
  end.

(** The entry of [server_name] in a document, when the document has the
    servers mapping and the entry is a mapping. *)
Definition lookup_entry (key : string) (cfg : config) (server_name : string)
    : option (gmap string json) :=
  match cfg !! key with
  | Some (JObj servers) =>
      match servers !! server_name with
      | Some (JObj entry) => Some entry
      | _ => None
      end
  | _ => None
  end.

(** The state of the entry of [server_name] in a document. *)
Definition server_state (key : string) (cfg : config) (server_name : string)
    : option marker_state :=
  entry_state <$> lookup_entry key cfg server_name.

(** The two states of the state model: the entry is there, as a mapping,
    and is active or disabled. *)
Definition in_state_model (key : string) (cfg : config) (server_name : string)
    : Prop :=
  server_state key cfg server_name = Some Active
  ∨ server_state key cfg server_name = Some Disabled.

(** ** A file-backed base

    Modelled from the spec: [JSONClientManager] ([mcpm/clients/base.py]),
    whose attribute [configure_key_name] and methods [_load_config] and
    [_save_config] the manager inherits, is not among the sources.  The
    spec gives: the key name [mcpServers]; load reads the file and parses
    it, and returns the empty template when the file is missing or does
    not parse; once loaded, the servers key is present, created if
    missing; save serializes the document back to the path; an error of
    the file system on write propagates from the write primitive. *)

Inductive file_state : Type :=
  | FileMissing
  | FileInvalid (text : string)
  | FileDocument (doc : config).

Record disk : Type := Disk {
  file : file_state;
  writable : bool;
}.

(** [{self.configure_key_name: {}}], the empty template of
    [_get_empty_config]. *)
Definition empty_config (key : string) : config :=
  {[ key := JObj ∅ ]}.

Definition disk_load (d : disk) : config :=
  match file d with
  | FileMissing | FileInvalid _ => empty_config "mcpServers"
  | FileDocument doc =>
      match doc !! "mcpServers" with
      | Some _ => doc
      | None => <["mcpServers" := JObj ∅]> doc
      end
  end.

Definition disk_save (cfg : config) (d : disk) : result bool * disk :=
  if writable d then (Return true, Disk (FileDocument cfg) true)
  else (Raise OSError, d).

#[export] Instance disk_manager : JSONClientManager disk := {
  configure_key_name := "mcpServers";
  _load_config := disk_load;
  _save_config := disk_save;
}.

(** The file holds no servers key for [_load_config] to return. *)
Definition file_lacks_servers (d : disk) : bool :=
  match file d with
  | FileDocument doc =>
      match doc !! "mcpServers" with
      | Some _ => false
      | None => true
      end
  | FileMissing | FileInvalid _ => true
  end.

(** Modelled from the spec: what reading back after a write relies on in
    the absent base.  A save that reports success is what the next load
    returns, and a save that does not leaves what the next load returns
    as it was. *)
Class ReliableStore (W : Type) `{JSONClientManager W} : Prop := {
  load_after_save : ∀ cfg w w',
    _save_config cfg w = (Return true, w') →
    is_Some (cfg !! configure_key_name) →
    _load_config w' = cfg;
  load_after_failed_save : ∀ cfg w r w',
    _save_config cfg w = (r, w') →
    r ≠ Return true →
    _load_config w' = _load_config w;
}.

(** [_get_empty_config] of [KiloCodeManager]. *)
Definition _get_empty_config {W} `{JSONClientManager W} : config :=
  empty_config configure_key_name.

(** ** Sequences of calls *)

Inductive call : Type :=
  | DisableServer (server_name : string)
  | EnableServer (server_name : string).

Definition perform {W} `{JSONClientManager W} (c : call) : M W bool :=
  match c with
  | DisableServer n => disable_server n
  | EnableServer n => enable_server n
  end.

(** The calls one after the other; what a call returns or raises does
    not stop the next one. *)
Fixpoint run_calls {W} `{JSONClientManager W} (calls : list call)
    (st : state W) : state W :=
  match calls with
  | [] => st
  | c :: rest => run_calls rest (perform c st).2
  end.

(** ** The constructor: where the configuration file is

    [__init__] reads the identity of the operating system that the base
    constructor keeps in [self._system], the environment, and the two
    functions [os.path.expanduser] and [os.path.join] of the host's path
    module.  They are the host. *)

Record host : Type := Host {
  _system : string;
  environ : gmap string string;
  os_path_expanduser : string → string;
  os_path_join : string → list string → string;
}.

(** [os.environ.get(name, default)] *)
Definition environ_get (h : host) (name default : string) : string :=
  match environ h !! name with
  | Some value => value
  | None => default
  end.

(** The manager object, as far as the constructor fills it. *)
Record KiloCodeManager : Type := Manager {
  config_path : string;
}.

(** [if config_path:] on the argument, [None] by default: [None] and the
    empty string are false. *)
Definition truthy (config_path : option string) : bool :=
  match config_path with
  | None => false
  | Some EmptyString => false
  | Some _ => true
  end.

Definition __init__ (h : host) (config_path : option string) : KiloCodeManager :=
  if truthy config_path then
    Manager (default EmptyString config_path)
  else if String.eqb (_system h) "Darwin" then
    Manager (os_path_expanduser h
      "~/Library/Application Support/Code/User/globalStorage/kilocode.kilo-code/settings/mcp_settings.json")
  else if String.eqb (_system h) "Windows" then
    Manager (os_path_join h (environ_get h "APPDATA" EmptyString)
      ["Code"; "User"; "globalStorage"; "kilocode.kilo-code"; "settings";
       "mcp_settings.json"])
  else
    Manager (os_path_expanduser h
      "~/.config/Code/User/globalStorage/kilocode.kilo-code/settings/mcp_settings.json").

(** *** A POSIX host

    Python's [posixpath.join] and [posixpath.expanduser], for hosts on
    which to run the constructor. *)

Module Posix.

Fixpoint endswith_sep (s : string) : bool :=
  match s with
  | EmptyString => false
  | String c EmptyString => Ascii.eqb c "/"%char
  | String _ rest => endswith_sep rest
  end.

Definition join_step (path b : string) : string :=
  if String.prefix "/" b then b
  else if String.eqb path EmptyString || endswith_sep path then path +:+ b
  else path +:+ "/" +:+ b.

Definition join (a : string) (p : list string) : string :=
  fold_left join_step p a.

(** [s] cut at its first separator: [(s[:i], s[i:])], with [i] the
    length of [s] when it has none. *)
Fixpoint cut_at_sep (s : string) : string * string :=
  match s with
  | EmptyString => (EmptyString, EmptyString)
  | String c rest =>
      if Ascii.eqb c "/"%char then (EmptyString, s)
      else let (name, tail) := cut_at_sep rest in (String c name, tail)
  end.

(** [s.rstrip('/')] *)
Fixpoint rstrip_sep (s : string) : string :=
  match s with
  | EmptyString => EmptyString
  | String c rest =>
      match rstrip_sep rest with
      | EmptyString => if Ascii.eqb c "/"%char then EmptyString else String c EmptyString
      | kept => String c kept
      end
  end.

(** [pw_dir] is the home directory the password database gives for the
    current user, [getpwnam] the one it gives for a user name. *)
Definition expanduser (env : gmap string string) (pw_dir : option string)
    (getpwnam : string → option string) (path : string) : string :=
  match path with
  | String "~"%char rest =>
      let (name, tail) := cut_at_sep rest in
      let userhome :=
        if String.eqb name EmptyString then
          match env !! "HOME" with
          | Some home => Some home
          | None => pw_dir
          end
        else getpwnam name in
      match userhome with
      | None => path
      | Some home =>
          let expanded := rstrip_sep home +:+ tail in
          if String.eqb expanded EmptyString then "/" else expanded
      end
  | _ => path
  end.

Definition make_host (system : string) (env : gmap string string)
    (pw_dir : option string) : host :=
  Host system env (expanduser env pw_dir (λ _, None)) join.

End Posix.


(** ** The documents and hosts of the test suite *)

Definition test_entry : gmap string json :=
  {[ "command" := JStr "python";
     "args" := JArr [JStr "-m"; JStr "test_server"] ]}.

Definition test_servers : gmap string json :=
  {[ "test-server" := JObj test_entry ]}.

Definition test_document : config :=
  {[ "mcpServers" := JObj test_servers ]}.

(** The file holds [test_document] and can be written; nothing logged. *)
Definition test_state : state disk :=
  State (Disk (FileDocument test_document) true) [].

(** The test suite's sequence: disable, then enable again. *)
Definition disabled_test_state : state disk :=
  (disable_server "test-server" test_state).2.

Definition reenabled_test_state : state disk :=
  (enable_server "test-server" disabled_test_state).2.

Definition test_calls : list call :=
  [DisableServer "test-server"; EnableServer "non-existent";
   DisableServer "test-server"; EnableServer "test-server";
   EnableServer "test-server"].

(** Entries whose [disabled] key is not the boolean [True]. *)
Definition marked_servers : gmap string json :=
  {[ "off" := JObj {[ "disabled" := JBool true ]};
     "false" := JObj {[ "disabled" := JBool false ]};
     "one" := JObj {[ "disabled" := JInt 1 ]};
     "text" := JObj {[ "disabled" := JStr "true" ]};
     "plain" := JObj {[ "command" := JStr "node" ]} ]}.

Definition marked_state : state disk :=
  State (Disk (FileDocument {[ "mcpServers" := JObj marked_servers ]}) true) [].

(** A file without the servers key. *)
Definition bare_disk : disk :=
  Disk (FileDocument {[ "theme" := JStr "dark" ]}) true.

Definition linux_host : host :=
  Posix.make_host "Linux" {[ "HOME" := "/home/user" ]} None.

Definition darwin_host : host :=
  Posix.make_host "Darwin" {[ "HOME" := "/Users/user" ]} None.

(** [platform.system] patched to [Windows] on a POSIX path module, as
    the test suite does; [APPDATA] unset. *)
Definition windows_host : host :=
  Posix.make_host "Windows" {[ "HOME" := "/home/user" ]} None.

(** ** What the calls leave alone *)

(** A value that is neither a mapping, a list nor a string: [x in v]
    raises on it. *)
Definition is_scalar (v : json) : bool :=
  match v with
  | JNull | JBool _ | JInt _ | JFloat _ => true
  | JStr _ | JArr _ | JObj _ => false
  end.

(** An entry without its [disabled] key; a value that is not a mapping
    has none. *)
Definition erase_marker (e : json) : json :=
  match e with
  | JObj entry => JObj (delete "disabled" entry)
  | _ => e
  end.

(** The document with the [disabled] key taken out of every entry of the
    servers mapping. *)
Definition erase_markers (key : string) (cfg : config) : config :=
  match cfg !! key with
  | Some (JObj servers) => <[key := JObj (erase_marker <$> servers)]> cfg
  | _ => cfg
  end.

(** The server a call names. *)
Definition call_target (c : call) : string :=
  match c with
  | DisableServer n | EnableServer n => n
  end.

(** ** Documents outside the data model, and other fixtures *)

(** The file is missing. *)
Definition missing_state : state disk :=
  State (Disk FileMissing true) [].

(** The servers key holds a number. *)
Definition scalar_state : state disk :=
  State (Disk (FileDocument {[ "mcpServers" := JInt 5 ]}) true) [].

(** The servers key holds a list of names. *)
Definition list_state : state disk :=
  State (Disk (FileDocument
                 {[ "mcpServers" := JArr [JStr "alpha"; JStr "beta"] ]}) true) [].

(** Entries that are not mappings. *)
Definition odd_servers : gmap string json :=
  {[ "number" := JInt 5;
     "words" := JArr [JStr "disabled"];
     "empty" := JArr [];
     "text" := JStr "not disabled yet" ]}.

Definition odd_state : state disk :=
  State (Disk (FileDocument {[ "mcpServers" := JObj odd_servers ]}) true) [].

Definition alpha_entry : gmap string json :=
  {[ "command" := JStr "python" ]}.

Definition beta_entry : gmap string json :=
  {[ "command" := JStr "node"; "disabled" := JBool true ]}.

Definition two_servers : gmap string json :=
  {[ "alpha" := JObj alpha_entry; "beta" := JObj beta_entry ]}.

Definition two_document : config :=
  {[ "mcpServers" := JObj two_servers; "theme" := JStr "dark" ]}.

Definition two_state : state disk :=
  State (Disk (FileDocument two_document) true) [].

Definition two_calls : list call :=
  [DisableServer "alpha"; EnableServer "beta"; EnableServer "gamma";
   DisableServer "beta"].

(** [marked_state] after enabling the server that was off. *)
Definition enabled_off_state : state disk :=
  (enable_server "off" marked_state).2.

(** Unfolding one call down to the Python-level steps. *)
Ltac unfold_call :=
  unfold disable_server, enable_server, is_server_disabled,
    mbind, M_bind, mret, M_ret, load_config, lift, logger_warning,
    save_config; simpl.

(** * Properties *)

(** ** The Python-level steps on a well-shaped document *)

Section Steps.
Context {W : Type} `{JSONClientManager W}.

Lemma server_not_found_absent cfg n :
  cfg !! configure_key_name = None → server_not_found cfg n = Return true.
Proof.
  intros Hk. unfold server_not_found, Py.dict_contains. by rewrite Hk.
Qed.

Lemma server_not_found_mapping cfg n servers :
  cfg !! configure_key_name = Some (JObj servers) →
  server_not_found cfg n
  = Return (match servers !! n with Some _ => false | None => true end).
Proof.
  intros Hk. unfold server_not_found, Py.dict_contains, Py.dict_getitem.
  rewrite Hk. simpl. by destruct (servers !! n).
Qed.

Lemma server_not_found_not_listed cfg n :
  not_listed cfg n → server_not_found cfg n = Return true.
Proof.
  intros [Hk | (servers & Hk & Hn)].
  - by apply server_not_found_absent.
  - rewrite (server_not_found_mapping _ _ _ Hk). by rewrite Hn.
Qed.

Lemma server_entry_mapping cfg n servers :
  cfg !! configure_key_name = Some (JObj servers) →
  server_entry cfg n
  = match servers !! n with Some e => Return e | None => Raise KeyError end.
Proof.
  intros Hk. unfold server_entry, Py.dict_getitem. by rewrite Hk.
Qed.

Lemma with_server_entry_mapping cfg n servers entry' :
  cfg !! configure_key_name = Some (JObj servers) →
  with_server_entry cfg n entry'
  = Return (<[configure_key_name := JObj (<[n := entry']> servers)]> cfg).
Proof.
  intros Hk. unfold with_server_entry, Py.dict_getitem. by rewrite Hk.
Qed.

Lemma set_disabled_mapping cfg n servers entry :
  cfg !! configure_key_name = Some (JObj servers) →
  servers !! n = Some (JObj entry) →
  set_disabled cfg n
  = Return (<[configure_key_name :=
               JObj (<[n := JObj (<["disabled" := JBool true]> entry)]> servers)]> cfg).
Proof.
  intros Hk Hn. unfold set_disabled.
  rewrite (server_entry_mapping _ _ _ Hk), Hn. simpl.
  by rewrite (with_server_entry_mapping _ _ _ _ Hk).
Qed.

Lemma del_disabled_mapping cfg n servers entry v :
  cfg !! configure_key_name = Some (JObj servers) →
  servers !! n = Some (JObj entry) →
  entry !! "disabled" = Some v →
  del_disabled cfg n
  = Return (<[configure_key_name :=
               JObj (<[n := JObj (delete "disabled" entry)]> servers)]> cfg).
Proof.
  intros Hk Hn Hd. unfold del_disabled.
  rewrite (server_entry_mapping _ _ _ Hk), Hn. simpl. rewrite Hd. simpl.
  by rewrite (with_server_entry_mapping _ _ _ _ Hk).
Qed.

Lemma data_model_shape cfg :
  data_model configure_key_name cfg = true →
  cfg !! configure_key_name = None
  ∨ ∃ servers, cfg !! configure_key_name = Some (JObj servers)
      ∧ ∀ n e, servers !! n = Some e → ∃ entry, e = JObj entry.
Proof.
  unfold data_model.
  destruct (cfg !! configure_key_name) as [v|]; [|by left].
  destruct v as [| | | | | |servers]; try discriminate.
  intros Hall. right. exists servers. split; [done|].
  intros n e Hn. rewrite forallb_forall in Hall.
  specialize (Hall (n, e)). simpl in Hall.
  destruct e; try (by eexists).
  all: exfalso; enough (false = true) by discriminate;
    apply Hall, list_elem_of_In, elem_of_map_to_list, Hn.
Qed.

Lemma data_model_cases cfg n :
  data_model configure_key_name cfg = true →
  not_listed cfg n
  ∨ ∃ servers entry,
      cfg !! configure_key_name = Some (JObj servers)
      ∧ servers !! n = Some (JObj entry).
Proof.
  intros Hdm. destruct (data_model_shape _ Hdm) as [Hk | (servers & Hk & Hall)].
  - left. by left.
  - destruct (servers !! n) as [e|] eqn:Hn.
    + destruct (Hall _ _ Hn) as [entry ->]. right. by exists servers, entry.
    + left. right. by exists servers.
Qed.

(** The calls, on a document in which the servers mapping lists the
    entry as a mapping. *)

Lemma disable_server_not_listed n (st : state W) :
  not_listed (_load_config (world st)) n →
  disable_server n st
  = (Return false,
     State (world st)
       (log st ++ ["Server '" +:+ n +:+ "' not found in active servers"])).
Proof.
  intros Hnl. unfold_call. by rewrite (server_not_found_not_listed _ _ Hnl).
Qed.

Lemma enable_server_not_listed n (st : state W) :
  not_listed (_load_config (world st)) n →
  enable_server n st
  = (Return false,
     State (world st)
       (log st ++ ["Server '" +:+ n +:+ "' not found in configuration"])).
Proof.
  intros Hnl. unfold_call. by rewrite (server_not_found_not_listed _ _ Hnl).
Qed.

Lemma disable_server_listed n (st : state W) servers entry :
  _load_config (world st) !! configure_key_name = Some (JObj servers) →
  servers !! n = Some (JObj entry) →
  disable_server n st
  = let (r, w') :=
      _save_config
        (<[configure_key_name :=
            JObj (<[n := JObj (<["disabled" := JBool true]> entry)]> servers)]>
           (_load_config (world st)))
        (world st)
    in (r, State w' (log st)).
Proof.
  intros Hk Hn. unfold_call.
  rewrite (server_not_found_mapping _ _ _ Hk), Hn.
  by rewrite (set_disabled_mapping _ _ _ _ Hk Hn).
Qed.

Lemma enable_server_marked n (st : state W) servers entry marker :
  _load_config (world st) !! configure_key_name = Some (JObj servers) →
  servers !! n = Some (JObj entry) →
  entry !! "disabled" = Some marker →
  enable_server n st
  = let (r, w') :=
      _save_config
        (<[configure_key_name :=
            JObj (<[n := JObj (delete "disabled" entry)]> servers)]>
           (_load_config (world st)))
        (world st)
    in (r, State w' (log st)).
Proof.
  intros Hk Hn Hd. unfold_call.
  rewrite (server_not_found_mapping _ _ _ Hk), Hn.
  rewrite (server_entry_mapping _ _ _ Hk), Hn. simpl. rewrite Hd. simpl.
  by rewrite (del_disabled_mapping _ _ _ _ _ Hk Hn Hd).
Qed.

Lemma enable_server_unmarked n (st : state W) servers entry :
  _load_config (world st) !! configure_key_name = Some (JObj servers) →
  servers !! n = Some (JObj entry) →
  entry !! "disabled" = None →
  enable_server n st
  = (Return true,
     State (world st) (log st ++ ["Server '" +:+ n +:+ "' is not disabled"])).
Proof.
  intros Hk Hn Hd. unfold_call.
  rewrite (server_not_found_mapping _ _ _ Hk), Hn.
  rewrite (server_entry_mapping _ _ _ Hk), Hn. simpl. by rewrite Hd.
Qed.

Lemma is_server_disabled_not_listed n (st : state W) :
  not_listed (_load_config (world st)) n →
  is_server_disabled n st = (Return false, st).
Proof.
  intros [Hk | (servers & Hk & Hn)]; unfold_call;
    unfold Py.dict_contains, Py.dict_getitem; rewrite Hk; simpl; [done|].
  by rewrite Hn.
Qed.

Lemma is_server_disabled_listed n (st : state W) servers entry :
  _load_config (world st) !! configure_key_name = Some (JObj servers) →
  servers !! n = Some (JObj entry) →
  is_server_disabled n st
  = (Return (match entry !! "disabled" with
             | Some (JBool true) => true
             | _ => false
             end), st).
Proof.
  intros Hk Hn. unfold_call. unfold Py.dict_contains, Py.dict_getitem.
  rewrite Hk. simpl. rewrite Hn. simpl.
  by destruct (entry !! "disabled") as [[| [] | | | | |]|].
Qed.

End Steps.

(** ** Disabling and enabling *)

Section Mutation.
Context {W : Type} `{JSONClientManager W}.

(** C1. [disable_server(name)] returns [False] and logs its warning when
    the servers key is absent from the loaded document or [name] is not a
    key of the servers mapping, without raising; when the entry is there,
    it sets the entry's [disabled] key to [True] and hands the document
    to [_save_config], whose result is what it returns.  On a document
    of the data model there is no third case. *)
Theorem disable_server_spec (server_name : string) (st : state W) :
  (not_listed (_load_config (world st)) server_name →
   disable_server server_name st
   = (Return false,
      State (world st)
        (log st ++ ["Server '" +:+ server_name +:+ "' not found in active servers"])))
  ∧ (∀ servers entry,
       _load_config (world st) !! configure_key_name = Some (JObj servers) →
       servers !! server_name = Some (JObj entry) →
       disable_server server_name st
       = let (r, w') :=
           _save_config
             (<[configure_key_name :=
                 JObj (<[server_name :=
                          JObj (<["disabled" := JBool true]> entry)]> servers)]>
                (_load_config (world st)))
             (world st)
         in (r, State w' (log st)))
  ∧ (data_model configure_key_name (_load_config (world st)) = true →
     not_listed (_load_config (world st)) server_name
     ∨ ∃ servers entry,
         _load_config (world st) !! configure_key_name = Some (JObj servers)
         ∧ servers !! server_name = Some (JObj entry)).
Proof.
  split; [|split].
  - apply disable_server_not_listed.
  - intros servers entry. apply disable_server_listed.
  - apply data_model_cases.
Qed.

(** C2. [enable_server(name)] returns [False] under the same not-found
    condition; when the entry has a [disabled] key, whatever its value,
    it deletes the key and hands the document to [_save_config], whose
    result is what it returns.  On a document of the data model the
    entry is there whenever the not-found condition fails. *)
Theorem enable_server_spec (server_name : string) (st : state W) :
  (not_listed (_load_config (world st)) server_name →
   enable_server server_name st
   = (Return false,
      State (world st)
        (log st ++ ["Server '" +:+ server_name +:+ "' not found in configuration"])))
  ∧ (∀ servers entry marker,
       _load_config (world st) !! configure_key_name = Some (JObj servers) →
       servers !! server_name = Some (JObj entry) →
       entry !! "disabled" = Some marker →
       enable_server server_name st
       = let (r, w') :=
           _save_config
             (<[configure_key_name :=
                 JObj (<[server_name := JObj (delete "disabled" entry)]> servers)]>
                (_load_config (world st)))
             (world st)
         in (r, State w' (log st)))
  ∧ (data_model configure_key_name (_load_config (world st)) = true →
     not_listed (_load_config (world st)) server_name
     ∨ ∃ servers entry,
         _load_config (world st) !! configure_key_name = Some (JObj servers)
         ∧ servers !! server_name = Some (JObj entry)).
Proof.
  split; [|split].
  - apply enable_server_not_listed.
  - intros servers entry marker. apply enable_server_marked.
  - apply data_model_cases.
Qed.

(** C5. On an entry without a [disabled] key, [enable_server(name)]
    returns [True] and the world that holds the file is the one it was
    called in: nothing is saved.  The call logs its warning. *)
Theorem enable_server_already_enabled (server_name : string) (st : state W)
    (servers entry : gmap string json) :
  _load_config (world st) !! configure_key_name = Some (JObj servers) →
  servers !! server_name = Some (JObj entry) →
  entry !! "disabled" = None →
  enable_server server_name st
  = (Return true,
     State (world st)
       (log st ++ ["Server '" +:+ server_name +:+ "' is not disabled"])).
Proof. apply enable_server_unmarked. Qed.

(** C10. When [disable_server(name)] or [enable_server(name)] meets the
    not-found condition, it returns [False] and the world that holds the
    file is the one it was called in: nothing is saved. *)
Theorem not_found_leaves_file (server_name : string) (st : state W) :
  not_listed (_load_config (world st)) server_name →
  ((disable_server server_name st).1 = Return false
   ∧ world (disable_server server_name st).2 = world st)
  ∧ ((enable_server server_name st).1 = Return false
     ∧ world (enable_server server_name st).2 = world st).
Proof.
  intros Hnl.
  rewrite (disable_server_not_listed _ _ Hnl), (enable_server_not_listed _ _ Hnl).
  done.
Qed.

(** What a call of [disable_server] that returns [True] went through. *)
Lemma disable_server_success (server_name : string) (st st' : state W) :
  disable_server server_name st = (Return true, st') →
  ∃ servers entry,
    _load_config (world st) !! configure_key_name = Some (JObj servers)
    ∧ servers !! server_name = Some (JObj entry)
    ∧ _save_config
        (<[configure_key_name :=
            JObj (<[server_name :=
                     JObj (<["disabled" := JBool true]> entry)]> servers)]>
           (_load_config (world st)))
        (world st)
      = (Return true, world st')
    ∧ log st' = log st.
Proof.
  unfold_call. unfold server_not_found, Py.dict_contains, Py.dict_getitem.
  destruct (_load_config (world st) !! configure_key_name) as [v|] eqn:Hk;
    simpl; [|intros [=]].
  destruct v as [| | | | s |items|servers]; simpl; try (intros [=]; fail).
  - destruct (Py.str_contains server_name s); simpl; [|intros [=]].
    unfold set_disabled, server_entry, Py.dict_getitem. rewrite Hk. simpl.
    intros [=].
  - destruct (existsb (Py.str_eq server_name) items); simpl; [|intros [=]].
    unfold set_disabled, server_entry, Py.dict_getitem. rewrite Hk. simpl.
    intros [=].
  - destruct (servers !! server_name) as [e|] eqn:Hn; simpl; [|intros [=]].
    unfold set_disabled. rewrite (server_entry_mapping _ _ _ Hk), Hn. simpl.
    destruct e as [| | | | | |entry]; simpl; try (intros [=]; fail).
    rewrite (with_server_entry_mapping _ _ _ _ Hk). simpl.
    destruct (_save_config _ (world st)) as [r w'] eqn:Hs.
    intros [= -> <-]. exists servers, entry. by rewrite Hs.
Qed.

(** C9. A [disable_server(name)] that returns [True] saved a document
    that differs from the loaded one in the [disabled] key of the named
    entry only: the entry has gained [disabled: true] and keeps every
    other field, every other entry of the servers mapping is as loaded,
    and so is every other key of the document. *)
Theorem disable_server_frame (server_name : string) (st st' : state W) :
  disable_server server_name st = (Return true, st') →
  ∃ (saved : config) (servers servers' entry entry' : gmap string json),
    _save_config saved (world st) = (Return true, world st')
    ∧ _load_config (world st) !! configure_key_name = Some (JObj servers)
    ∧ servers !! server_name = Some (JObj entry)
    ∧ saved !! configure_key_name = Some (JObj servers')
    ∧ servers' !! server_name = Some (JObj entry')
    ∧ entry' !! "disabled" = Some (JBool true)
    ∧ (∀ field, field ≠ "disabled" → entry' !! field = entry !! field)
    ∧ (∀ other, other ≠ server_name → servers' !! other = servers !! other)
    ∧ (∀ key, key ≠ configure_key_name →
         saved !! key = _load_config (world st) !! key).
Proof.
  intros Hrun.
  destruct (disable_server_success _ _ _ Hrun) as (servers & entry & Hk & Hn & Hs & _).
  eexists _, servers, _, entry, _. split; [exact Hs|].
  split; [exact Hk|]. split; [exact Hn|].
  split; [apply lookup_insert_eq|]. split; [apply lookup_insert_eq|].
  split; [apply lookup_insert_eq|].
  split; [|split]; intros x Hx; by rewrite lookup_insert_ne.
Qed.

End Mutation.

(** ** The predicate *)

Section Predicate.
Context {W : Type} `{JSONClientManager W}.

Lemma is_server_disabled_pure n (st : state W) :
  (is_server_disabled n st).2 = st.
Proof. unfold_call. done. Qed.

Lemma is_server_disabled_true n (st st' : state W) :
  is_server_disabled n st = (Return true, st') →
  ∃ servers entry,
    _load_config (world st) !! configure_key_name = Some (JObj servers)
    ∧ servers !! n = Some (JObj entry)
    ∧ entry !! "disabled" = Some (JBool true).
Proof.
  unfold_call. unfold Py.dict_contains, Py.dict_getitem.
  destruct (_load_config (world st) !! configure_key_name) as [v|] eqn:Hk;
    simpl; [|intros [=]].
  destruct v as [| | | | s |items|servers]; simpl; try (intros [=]; fail).
  - destruct (Py.str_contains n s); simpl; intros [=].
  - destruct (existsb (Py.str_eq n) items); simpl; intros [=].
  - destruct (servers !! n) as [e|] eqn:Hn; simpl; [|intros [=]].
    destruct e as [| | | | | |entry]; simpl; try (intros [=]; fail).
    destruct (entry !! "disabled") as [marker|] eqn:Hd; simpl; [|intros [=]].
    destruct marker as [| [] | | | | |]; simpl; intros [=].
    by exists servers, entry.
Qed.

(** C4, on the documents of the data model.  On every document,
    [is_server_disabled(name)] leaves the world and the log as they are,
    whatever it returns, and it returns [True] exactly when the loaded
    document has the servers key, [name] is in the servers mapping and
    the entry's [disabled] key is the boolean [True].  With the section
    or the name missing, or with an entry whose [disabled] key is missing
    or is any other value, it returns [False].  On every document of the
    data model these are all the cases: whenever it does not return
    [True] it returns [False], and it does not raise. *)
Theorem is_server_disabled_spec (server_name : string) (st : state W) :
  (is_server_disabled server_name st).2 = st
  ∧ ((is_server_disabled server_name st).1 = Return true
     ↔ ∃ servers entry,
         _load_config (world st) !! configure_key_name = Some (JObj servers)
         ∧ servers !! server_name = Some (JObj entry)
         ∧ entry !! "disabled" = Some (JBool true))
  ∧ (not_listed (_load_config (world st)) server_name
     ∨ (∃ servers entry,
          _load_config (world st) !! configure_key_name = Some (JObj servers)
          ∧ servers !! server_name = Some (JObj entry)
          ∧ entry !! "disabled" ≠ Some (JBool true)) →
     (is_server_disabled server_name st).1 = Return false)
  ∧ (data_model configure_key_name (_load_config (world st)) = true →
     ¬ (∃ servers entry,
          _load_config (world st) !! configure_key_name = Some (JObj servers)
          ∧ servers !! server_name = Some (JObj entry)
          ∧ entry !! "disabled" = Some (JBool true)) →
     (is_server_disabled server_name st).1 = Return false).
Proof.
  split; [apply is_server_disabled_pure|]. split; [|split].
  - split.
    + intros Hr.
      destruct (is_server_disabled server_name st) as [r st'] eqn:Hrun.
      simpl in Hr. subst r. by eapply is_server_disabled_true.
    + intros (servers & entry & Hk & Hn & Hd).
      by rewrite (is_server_disabled_listed _ _ _ _ Hk Hn), Hd.
  - intros [Hnl | (servers & entry & Hk & Hn & Hd)].
    + by rewrite (is_server_disabled_not_listed _ _ Hnl).
    + rewrite (is_server_disabled_listed _ _ _ _ Hk Hn). simpl.
      by destruct (entry !! "disabled") as [[| [] | | | | |]|].
  - intros Hdm Hnot.
    destruct (data_model_cases _ server_name Hdm)
      as [Hnl | (servers & entry & Hk & Hn)].
    + by rewrite (is_server_disabled_not_listed _ _ Hnl).
    + rewrite (is_server_disabled_listed _ _ _ _ Hk Hn). simpl.
      destruct (entry !! "disabled") as [[| [] | | | | |]|] eqn:Hd; try done.
      destruct Hnot. by exists servers, entry.
Qed.

End Predicate.

(** ** Reading back what was written *)

Lemma disk_load_has_servers (d : disk) :
  is_Some (disk_load d !! "mcpServers").
Proof.
  unfold disk_load. destruct (file d) as [| |doc]; try done.
  destruct (doc !! "mcpServers") eqn:Hk; [by rewrite Hk|].
  by rewrite lookup_insert_eq.
Qed.

(** A missing file and a file that does not parse load as the empty
    template. *)
Lemma disk_load_empty_template (d : disk) :
  file d = FileMissing ∨ (∃ text, file d = FileInvalid text) →
  _load_config d = _get_empty_config.
Proof.
  intros [Hf | [text Hf]]; simpl; unfold disk_load; by rewrite Hf.
Qed.

#[export] Instance disk_reliable : ReliableStore disk.
Proof.
  split.
  - intros cfg w w'. simpl. unfold disk_save.
    destruct (writable w); intros [= <-]. intros [v Hv].
    unfold disk_load. simpl. by rewrite Hv.
  - intros cfg w r w'. simpl. unfold disk_save.
    destruct (writable w); intros [= <- <-]; done.
Qed.

Section RoundTrip.
Context {W : Type} `{JSONClientManager W} `{!ReliableStore W}.

(** C3. After a [disable_server(n)] that returned [True],
    [is_server_disabled(n)] returns [True]; after an [enable_server(n)]
    that then returned [True], it returns [False].  (A [disable_server]
    that returns [True] has found [n] under the servers key.) *)
Theorem disable_enable_round_trip (n : string) (st st1 : state W) :
  disable_server n st = (Return true, st1) →
  is_server_disabled n st1 = (Return true, st1)
  ∧ ∀ st2, enable_server n st1 = (Return true, st2) →
           is_server_disabled n st2 = (Return false, st2).
Proof.
  intros Hdis.
  destruct (disable_server_success _ _ _ Hdis)
    as (servers & entry & Hk & Hn & Hs & _).
  apply load_after_save in Hs; [|by rewrite lookup_insert_eq].
  assert (Hk1 := f_equal (λ c : config, c !! configure_key_name) Hs).
  simpl in Hk1. rewrite lookup_insert_eq in Hk1.
  pose proof (lookup_insert_eq servers n
                (JObj (<["disabled" := JBool true]> entry))) as Hn1.
  split.
  - rewrite (is_server_disabled_listed _ _ _ _ Hk1 Hn1).
    by rewrite lookup_insert_eq.
  - intros st2.
    rewrite (enable_server_marked _ _ _ _ (JBool true) Hk1 Hn1);
      [|apply lookup_insert_eq].
    destruct (_save_config _ (world st1)) as [r w2] eqn:Hs2.
    intros [= -> <-].
    apply load_after_save in Hs2; [|by rewrite lookup_insert_eq].
    assert (Hk2 := f_equal (λ c : config, c !! configure_key_name) Hs2).
    simpl in Hk2. rewrite lookup_insert_eq in Hk2.
    rewrite (is_server_disabled_listed n (State w2 (log st1)) _ _ Hk2
               (lookup_insert_eq _ _ _)).
    by rewrite lookup_delete_eq.
Qed.

End RoundTrip.

(** ** The state model of an entry *)

Section StateModel.
Context {W : Type} `{JSONClientManager W} `{!ReliableStore W}.

Lemma server_state_inv cfg n s :
  server_state configure_key_name cfg n = Some s →
  ∃ servers entry,
    cfg !! configure_key_name = Some (JObj servers)
    ∧ servers !! n = Some (JObj entry)
    ∧ entry_state entry = s.
Proof.
  unfold server_state, lookup_entry.
  destruct (cfg !! configure_key_name) as [[| | | | | |servers]|]; try done.
  destruct (servers !! n) as [[| | | | | |entry]|] eqn:Hn; try done.
  intros [= <-]. by exists servers, entry.
Qed.

Lemma server_state_updated cfg n servers' :
  server_state configure_key_name
    (<[configure_key_name := JObj servers']> cfg) n
  = match servers' !! n with
    | Some (JObj entry) => Some (entry_state entry)
    | _ => None
    end.
Proof.
  unfold server_state, lookup_entry. rewrite lookup_insert_eq.
  by destruct (servers' !! n) as [[| | | | | |entry]|].
Qed.

(** What a call does to the document the next load returns: nothing, or
    the update of its target entry. *)
Lemma perform_document (c : call) (st : state W) servers :
  _load_config (world st) !! configure_key_name = Some (JObj servers) →
  _load_config (world (perform c st).2) = _load_config (world st)
  ∨ ∃ n entry,
      servers !! n = Some (JObj entry)
      ∧ ((c = DisableServer n
          ∧ _load_config (world (perform c st).2)
            = <[configure_key_name :=
                 JObj (<[n := JObj (<["disabled" := JBool true]> entry)]> servers)]>
                (_load_config (world st)))
         ∨ (c = EnableServer n
            ∧ _load_config (world (perform c st).2)
              = <[configure_key_name :=
                   JObj (<[n := JObj (delete "disabled" entry)]> servers)]>
                  (_load_config (world st)))).
Proof.
  intros Hk. destruct c as [n|n]; simpl.
  - destruct (servers !! n) as [e|] eqn:Hn.
    + destruct e as [| | | | | |entry].
      1-6: left; unfold_call;
        rewrite (server_not_found_mapping _ _ _ Hk), Hn; simpl;
        unfold set_disabled; rewrite (server_entry_mapping _ _ _ Hk), Hn;
        done.
      rewrite (disable_server_listed _ _ _ _ Hk Hn).
      destruct (_save_config _ (world st)) as [r w'] eqn:Hs. simpl.
      destruct r as [[|]|e].
      * right. exists n, entry. split; [done|]. left. split; [done|].
        apply (load_after_save _ _ _ Hs). by rewrite lookup_insert_eq.
      * left. by apply (load_after_failed_save _ _ _ _ Hs).
      * left. by apply (load_after_failed_save _ _ _ _ Hs).
    + left. rewrite disable_server_not_listed; [done|].
      right. by exists servers.
  - destruct (servers !! n) as [e|] eqn:Hn.
    + destruct e as [| | | | s |items|entry].
      1-6: left; unfold_call;
        rewrite (server_not_found_mapping _ _ _ Hk), Hn; simpl;
        rewrite (server_entry_mapping _ _ _ Hk), Hn; simpl; try done.
      * destruct (Py.str_contains "disabled" s); simpl; [|done].
        unfold del_disabled. by rewrite (server_entry_mapping _ _ _ Hk), Hn.
      * destruct (existsb (Py.str_eq "disabled") items); simpl; [|done].
        unfold del_disabled. by rewrite (server_entry_mapping _ _ _ Hk), Hn.
      * destruct (entry !! "disabled") as [marker|] eqn:Hd.
        -- rewrite (enable_server_marked _ _ _ _ _ Hk Hn Hd).
           destruct (_save_config _ (world st)) as [r w'] eqn:Hs. simpl.
           destruct r as [[|]|e].
           ++ right. exists n, entry. split; [done|]. right. split; [done|].
              apply (load_after_save _ _ _ Hs). by rewrite lookup_insert_eq.
           ++ left. by apply (load_after_failed_save _ _ _ _ Hs).
           ++ left. by apply (load_after_failed_save _ _ _ _ Hs).
        -- left. by rewrite (enable_server_unmarked _ _ _ _ Hk Hn Hd).
    + left. rewrite enable_server_not_listed; [done|].
      right. by exists servers.
Qed.

Lemma perform_keeps_state_model (n : string) (c : call) (st : state W) :
  in_state_model configure_key_name (_load_config (world st)) n →
  in_state_model configure_key_name (_load_config (world (perform c st).2)) n.
Proof.
  intros Hin.
  assert (∃ servers entry,
            _load_config (world st) !! configure_key_name = Some (JObj servers)
            ∧ servers !! n = Some (JObj entry)) as (servers & entry & Hk & Hn).
  { destruct Hin as [Hs|Hs]; apply server_state_inv in Hs;
      destruct Hs as (servers & entry & ? & ? & _); by exists servers, entry. }
  destruct (perform_document c st servers Hk)
    as [-> | (n' & entry' & Hn' & [[_ ->] | [_ ->]])]; [done| |];
    unfold in_state_model; rewrite server_state_updated;
    (destruct (decide (n' = n)) as [->|Hne];
     [rewrite lookup_insert_eq
     |rewrite lookup_insert_ne by done; rewrite Hn;
      unfold in_state_model, server_state, lookup_entry in Hin;
      by rewrite Hk, Hn in Hin]).
  - right. unfold entry_state. by rewrite lookup_insert_eq.
  - left. unfold entry_state. by rewrite lookup_delete_eq.
Qed.

Lemma run_calls_keeps_state_model (n : string) (calls : list call) :
  ∀ st : state W,
    in_state_model configure_key_name (_load_config (world st)) n →
    in_state_model configure_key_name
      (_load_config (world (run_calls calls st))) n.
Proof.
  induction calls as [|c rest IH]; intros st Hin; simpl; [done|].
  by apply IH, perform_keeps_state_model.
Qed.

(** C8. From an entry that is active (no [disabled] key) or disabled
    ([disabled: true]), every sequence of [disable_server] and
    [enable_server] calls, on this or any other name, leaves the entry
    active or disabled; its [disabled] key is never [false].  From
    either state, a [disable_server] on the entry that returns [True]
    leaves it disabled, and an [enable_server] that returns [True]
    leaves it active, the key deleted. *)
Theorem state_model_closed (n : string) (calls : list call) (st : state W) :
  in_state_model configure_key_name (_load_config (world st)) n →
  in_state_model configure_key_name
    (_load_config (world (run_calls calls st))) n
  ∧ (∀ entry,
       lookup_entry configure_key_name
         (_load_config (world (run_calls calls st))) n = Some entry →
       entry !! "disabled" ≠ Some (JBool false))
  ∧ (∀ st', disable_server n st = (Return true, st') →
       server_state configure_key_name (_load_config (world st')) n
       = Some Disabled)
  ∧ (∀ st', enable_server n st = (Return true, st') →
       server_state configure_key_name (_load_config (world st')) n
       = Some Active).
Proof.
  intros Hin. split; [by apply run_calls_keeps_state_model|]. split; [|split].
  - intros entry Hentry.
    pose proof (run_calls_keeps_state_model n calls st Hin) as Hin'.
    unfold in_state_model, server_state in Hin'. rewrite Hentry in Hin'.
    simpl in Hin'. unfold entry_state in Hin'.
    intros Hfalse. rewrite Hfalse in Hin'. by destruct Hin' as [[=]|[=]].
  - intros st' Hdis.
    destruct (disable_server_success _ _ _ Hdis)
      as (servers & entry & Hk & Hn & Hs & _).
    apply load_after_save in Hs; [|by rewrite lookup_insert_eq].
    rewrite Hs, server_state_updated, lookup_insert_eq.
    unfold entry_state. by rewrite lookup_insert_eq.
  - intros st' Hen.
    assert (∃ servers entry,
              _load_config (world st) !! configure_key_name = Some (JObj servers)
              ∧ servers !! n = Some (JObj entry)
              ∧ entry_state entry ≠ OtherMarker)
      as (servers & entry & Hk & Hn & Hst).
    { destruct Hin as [Hs|Hs]; apply server_state_inv in Hs;
        destruct Hs as (servers & entry & ? & ? & Hs);
        exists servers, entry; by rewrite Hs. }
    destruct (entry !! "disabled") as [marker|] eqn:Hd.
    + rewrite (enable_server_marked _ _ _ _ _ Hk Hn Hd) in Hen.
      destruct (_save_config _ (world st)) as [r w'] eqn:Hs.
      injection Hen as -> <-. simpl.
      apply load_after_save in Hs; [|by rewrite lookup_insert_eq].
      rewrite Hs, server_state_updated, lookup_insert_eq.
      unfold entry_state. by rewrite lookup_delete_eq.
    + rewrite (enable_server_unmarked _ _ _ _ Hk Hn Hd) in Hen.
      injection Hen as <-. simpl.
      unfold server_state, lookup_entry. rewrite Hk, Hn. simpl.
      unfold entry_state. by rewrite Hd.
Qed.

End StateModel.

(** ** The servers key at the time of a mutation *)

Section Writes.
Context {W : Type} `{JSONClientManager W}.

(** A call that changes the world has gone past the guard and through
    the assignment or the deletion: the servers key was there, as a
    mapping, with the entry in it, as a mapping. *)
Lemma disable_server_writes n (st : state W) :
  world (disable_server n st).2 ≠ world st →
  ∃ servers entry,
    _load_config (world st) !! configure_key_name = Some (JObj servers)
    ∧ servers !! n = Some (JObj entry).
Proof.
  destruct (_load_config (world st) !! configure_key_name) as [v|] eqn:Hk.
  - destruct v as [| | | | s |items|servers].
    1-6: unfold_call; unfold server_not_found, Py.dict_contains, Py.dict_getitem;
      rewrite Hk; simpl; try done.
    + destruct (Py.str_contains n s); simpl; [|done].
      unfold set_disabled, server_entry, Py.dict_getitem. by rewrite Hk.
    + destruct (existsb (Py.str_eq n) items); simpl; [|done].
      unfold set_disabled, server_entry, Py.dict_getitem. by rewrite Hk.
    + destruct (servers !! n) as [e|] eqn:Hn.
      * destruct e as [| | | | | |entry]; [..|by exists servers, entry].
        all: unfold_call; rewrite (server_not_found_mapping _ _ _ Hk), Hn;
          simpl; unfold set_disabled;
          by rewrite (server_entry_mapping _ _ _ Hk), Hn.
      * rewrite disable_server_not_listed; [done|]. right. by exists servers.
  - rewrite disable_server_not_listed; [done|]. by left.
Qed.

Lemma enable_server_writes n (st : state W) :
  world (enable_server n st).2 ≠ world st →
  ∃ servers entry,
    _load_config (world st) !! configure_key_name = Some (JObj servers)
    ∧ servers !! n = Some (JObj entry).
Proof.
  destruct (_load_config (world st) !! configure_key_name) as [v|] eqn:Hk.
  - destruct v as [| | | | s |items|servers].
    1-6: unfold_call; unfold server_not_found, Py.dict_contains, Py.dict_getitem;
      rewrite Hk; simpl; try done.
    + destruct (Py.str_contains n s); simpl; [|done].
      unfold server_entry, Py.dict_getitem. by rewrite Hk.
    + destruct (existsb (Py.str_eq n) items); simpl; [|done].
      unfold server_entry, Py.dict_getitem. by rewrite Hk.
    + destruct (servers !! n) as [e|] eqn:Hn.
      * destruct e as [| | | | s |items|entry]; [..|by exists servers, entry].
        all: unfold_call; rewrite (server_not_found_mapping _ _ _ Hk), Hn;
          simpl; rewrite (server_entry_mapping _ _ _ Hk), Hn; simpl; try done.
        -- destruct (Py.str_contains "disabled" s); simpl; [|done].
           unfold del_disabled. by rewrite (server_entry_mapping _ _ _ Hk), Hn.
        -- destruct (existsb (Py.str_eq "disabled") items); simpl; [|done].
           unfold del_disabled. by rewrite (server_entry_mapping _ _ _ Hk), Hn.
      * rewrite enable_server_not_listed; [done|]. right. by exists servers.
  - rewrite enable_server_not_listed; [done|]. by left.
Qed.

End Writes.

Lemma guard_passed_servers_present {W : Type} `{JSONClientManager W}
    (cfg : config) (n : string) :
  server_not_found cfg n = Return false →
  ∃ v, cfg !! configure_key_name = Some v ∧ Py.contains n v = Return true.
Proof.
  unfold server_not_found, Py.dict_contains, Py.dict_getitem.
  destruct (cfg !! configure_key_name) as [v|]; simpl; [|intros [=]].
  destruct (Py.contains n v) as [[|]|] eqn:Hin; simpl; intros [=].
  by exists v.
Qed.

Lemma mutation_done_on_mapping {W : Type} `{JSONClientManager W}
    (cfg cfg' : config) (n : string) :
  set_disabled cfg n = Return cfg' ∨ del_disabled cfg n = Return cfg' →
  ∃ servers entry,
    cfg !! configure_key_name = Some (JObj servers)
    ∧ servers !! n = Some (JObj entry).
Proof.
  unfold set_disabled, del_disabled, server_entry, Py.dict_getitem.
  destruct (cfg !! configure_key_name) as [v|]; simpl;
    [|by intros [[=]|[=]]].
  destruct v as [| | | | | |servers]; simpl; try (by intros [[=]|[=]]).
  destruct (servers !! n) as [e|] eqn:Hn; simpl; [|by intros [[=]|[=]]].
  destruct e as [| | | | | |entry]; simpl; try (by intros [[=]|[=]]).
  intros _. by exists servers, entry.
Qed.

(** C7, without the promise that the key holds a mapping.  What
    [_load_config] returns always has the servers key: the empty mapping,
    created, when the file is missing, does not parse or has no such
    key, and otherwise the value the file holds for it, which nothing
    checks to be a mapping.  In the two methods, for every base, a
    document without the key leaves through the guard; when the guard
    lets the call through to the assignment or the deletion, the key is
    present and holds the name; and an assignment or deletion that
    completes was made on a servers mapping, in an entry that is a
    mapping. *)
Theorem servers_key_at_mutation :
  (∀ d : disk,
     is_Some (_load_config d !! configure_key_name)
     ∧ (file_lacks_servers d = true →
        _load_config d !! configure_key_name = Some (JObj ∅))
     ∧ (∀ doc v, file d = FileDocument doc → doc !! "mcpServers" = Some v →
                 _load_config d !! configure_key_name = Some v))
  ∧ (∀ (W : Type) (base : JSONClientManager W) (st : state W) (n : string),
       (_load_config (world st) !! configure_key_name = None →
        disable_server n st
        = (Return false,
           State (world st)
             (log st ++ ["Server '" +:+ n +:+ "' not found in active servers"]))
        ∧ enable_server n st
          = (Return false,
             State (world st)
               (log st ++ ["Server '" +:+ n +:+ "' not found in configuration"])))
       ∧ (server_not_found (_load_config (world st)) n = Return false →
          ∃ v, _load_config (world st) !! configure_key_name = Some v
               ∧ Py.contains n v = Return true)
       ∧ (∀ cfg',
            set_disabled (_load_config (world st)) n = Return cfg'
            ∨ del_disabled (_load_config (world st)) n = Return cfg' →
            ∃ servers entry,
              _load_config (world st) !! configure_key_name = Some (JObj servers)
              ∧ servers !! n = Some (JObj entry))).
Proof.
  split.
  - intros d. split; [apply disk_load_has_servers|]. split.
    + simpl. unfold file_lacks_servers, disk_load.
      destruct (file d) as [| |doc]; try done.
      destruct (doc !! "mcpServers"); [done|]. intros _. apply lookup_insert_eq.
    + intros doc v Hf Hv. simpl. unfold disk_load. by rewrite Hf, Hv.
  - intros W base st n. split; [|split].
    + intros Hk. split.
      * apply disable_server_not_listed. by left.
      * apply enable_server_not_listed. by left.
    + apply guard_passed_servers_present.
    + intros cfg'. apply mutation_done_on_mapping.
Qed.

(** ** The path of the configuration file *)

Lemma truthy_explicit (p : string) :
  p ≠ EmptyString → truthy (Some p) = true.
Proof. by destruct p. Qed.

(** C6, with an explicit path that is not empty.  Such a path is stored
    as it is, whatever the host.  With no path, or with the empty path,
    the path depends on the identity of the operating system only through
    three branches: on [Darwin] the expansion of the path under
    [~/Library/Application Support], on [Windows] the join of [APPDATA]
    (the empty string when unset) with the segments, and on any other
    identity the expansion of the path under [~/.config]. *)
Theorem config_path_resolution (h : host) (explicit : option string) :
  (∀ p, explicit = Some p → p ≠ EmptyString →
        config_path (__init__ h explicit) = p)
  ∧ (explicit = None ∨ explicit = Some EmptyString →
     (_system h = "Darwin" →
      config_path (__init__ h explicit)
      = os_path_expanduser h
          "~/Library/Application Support/Code/User/globalStorage/kilocode.kilo-code/settings/mcp_settings.json")
     ∧ (_system h = "Windows" →
        config_path (__init__ h explicit)
        = os_path_join h
            (match environ h !! "APPDATA" with
             | Some appdata => appdata
             | None => EmptyString
             end)
            ["Code"; "User"; "globalStorage"; "kilocode.kilo-code";
             "settings"; "mcp_settings.json"])
     ∧ (_system h ≠ "Darwin" → _system h ≠ "Windows" →
        config_path (__init__ h explicit)
        = os_path_expanduser h
            "~/.config/Code/User/globalStorage/kilocode.kilo-code/settings/mcp_settings.json")).
Proof.
  split.
  - intros p -> Hp. unfold __init__. by rewrite (truthy_explicit p Hp).
  - intros Hno.
    assert (truthy explicit = false) as Hfalse by (by destruct Hno as [->| ->]).
    unfold __init__. rewrite Hfalse. split; [|split].
    + by intros ->.
    + by intros ->.
    + intros Hd Hw.
      apply String.eqb_neq in Hd, Hw. by rewrite Hd, Hw.
Qed.

(** * The properties on the documents of the test suite *)

Lemma disable_server_spec_witness :
  disable_server "non-existent" test_state
  = (Return false,
     State (world test_state)
       ["Server 'non-existent' not found in active servers"])
  ∧ disable_server "test-server" test_state
    = (Return true,
       State (Disk (FileDocument
                      {[ "mcpServers" :=
                           JObj {[ "test-server" :=
                                     JObj (<["disabled" := JBool true]> test_entry) ]} ]})
                true) []).
Proof.
  split.
  - apply (proj1 (disable_server_spec "non-existent" test_state)).
    right. exists test_servers. split; reflexivity.
  - etrans;
      [apply (proj1 (proj2 (disable_server_spec "test-server" test_state))
                test_servers test_entry); reflexivity|].
    vm_compute. reflexivity.
Defined.

Lemma enable_server_spec_witness :
  enable_server "non-existent" test_state
  = (Return false,
     State (world test_state)
       ["Server 'non-existent' not found in configuration"])
  ∧ enable_server "false" marked_state
    = (Return true,
       State (Disk (FileDocument
                      {[ "mcpServers" :=
                           JObj (<["false" := JObj ∅]> marked_servers) ]})
                true) []).
Proof.
  split.
  - apply (proj1 (enable_server_spec "non-existent" test_state)).
    right. exists test_servers. split; reflexivity.
  - etrans;
      [apply (proj1 (proj2 (enable_server_spec "false" marked_state))
                marked_servers {[ "disabled" := JBool false ]} (JBool false));
       reflexivity|].
    vm_compute. reflexivity.
Defined.

Lemma disable_enable_round_trip_witness :
  disable_server "test-server" test_state = (Return true, disabled_test_state)
  ∧ is_server_disabled "test-server" disabled_test_state
    = (Return true, disabled_test_state)
  ∧ enable_server "test-server" disabled_test_state
    = (Return true, reenabled_test_state)
  ∧ is_server_disabled "test-server" reenabled_test_state
    = (Return false, reenabled_test_state).
Proof.
  assert (disable_server "test-server" test_state
          = (Return true, disabled_test_state)) as Hdis
    by (vm_compute; reflexivity).
  assert (enable_server "test-server" disabled_test_state
          = (Return true, reenabled_test_state)) as Hen
    by (vm_compute; reflexivity).
  destruct (disable_enable_round_trip "test-server" test_state
              disabled_test_state Hdis) as [Hon Hoff].
  split; [exact Hdis|]. split; [exact Hon|]. split; [exact Hen|].
  exact (Hoff reenabled_test_state Hen).
Defined.

Lemma is_server_disabled_spec_witness :
  (is_server_disabled "off" marked_state).1 = Return true
  ∧ (is_server_disabled "false" marked_state).1 = Return false
  ∧ (is_server_disabled "one" marked_state).1 = Return false
  ∧ (is_server_disabled "text" marked_state).1 = Return false
  ∧ (is_server_disabled "plain" marked_state).1 = Return false
  ∧ (is_server_disabled "non-existent" marked_state).1 = Return false
  ∧ (is_server_disabled "off" (State bare_disk [])).2 = State bare_disk []
  ∧ (data_model "mcpServers" (disk_load (world test_state)) = true
     ∧ (is_server_disabled "test-server" test_state).1 = Return false).
Proof.
  split.
  { apply (proj1 (proj2 (is_server_disabled_spec "off" marked_state))).
    exists marked_servers, {[ "disabled" := JBool true ]}.
    repeat split; reflexivity. }
  split.
  { apply (proj1 (proj2 (proj2 (is_server_disabled_spec "false" marked_state)))).
    right. exists marked_servers, {[ "disabled" := JBool false ]}.
    repeat split; try reflexivity. vm_compute. discriminate. }
  split.
  { apply (proj1 (proj2 (proj2 (is_server_disabled_spec "one" marked_state)))).
    right. exists marked_servers, {[ "disabled" := JInt 1 ]}.
    repeat split; try reflexivity. vm_compute. discriminate. }
  split.
  { apply (proj1 (proj2 (proj2 (is_server_disabled_spec "text" marked_state)))).
    right. exists marked_servers, {[ "disabled" := JStr "true" ]}.
    repeat split; try reflexivity. vm_compute. discriminate. }
  split.
  { apply (proj1 (proj2 (proj2 (is_server_disabled_spec "plain" marked_state)))).
    right. exists marked_servers, {[ "command" := JStr "node" ]}.
    repeat split; try reflexivity. vm_compute. discriminate. }
  split.
  { apply (proj1 (proj2 (proj2 (is_server_disabled_spec "non-existent" marked_state)))).
    left. right. exists marked_servers. split; reflexivity. }
  split.
  { apply (proj1 (is_server_disabled_spec "off" (State bare_disk []))). }
  split; [reflexivity|].
  apply (proj2 (proj2 (proj2 (is_server_disabled_spec "test-server" test_state))));
    [reflexivity|].
  intros (servers & entry & Hk & Hn & Hd).
  vm_compute in Hk. injection Hk as <-.
  vm_compute in Hn. injection Hn as <-.
  vm_compute in Hd. discriminate.
Defined.

(** The claim C4 as it stands fails outside the data model: on an entry
    that is a number the predicate raises [AttributeError], and on a
    servers value that is a number it raises [TypeError]. *)
Lemma is_server_disabled_raises :
  (is_server_disabled "number" odd_state).1 = Raise AttributeError
  ∧ (is_server_disabled "number" odd_state).1 ≠ Return false
  ∧ (is_server_disabled "alpha" scalar_state).1 = Raise TypeError
  ∧ (is_server_disabled "alpha" scalar_state).1 ≠ Return false.
Proof. repeat split; vm_compute; done. Qed.

Lemma enable_server_already_enabled_witness :
  enable_server "test-server" test_state
  = (Return true,
     State (world test_state) ["Server 'test-server' is not disabled"]).
Proof.
  apply (enable_server_already_enabled "test-server" test_state
           test_servers test_entry); reflexivity.
Defined.

Lemma state_model_closed_witness :
  in_state_model "mcpServers" (disk_load (world test_state)) "test-server"
  ∧ in_state_model "mcpServers"
      (disk_load (world (run_calls test_calls test_state))) "test-server".
Proof.
  assert (in_state_model "mcpServers" (disk_load (world test_state))
            "test-server") as Hin by (left; reflexivity).
  split; [exact Hin|].
  exact (proj1 (state_model_closed "test-server" test_calls test_state Hin)).
Defined.

Lemma disable_server_frame_witness :
  ∃ (saved : config) (servers servers' entry entry' : gmap string json),
    disk_save saved (world test_state) = (Return true, world disabled_test_state)
    ∧ disk_load (world test_state) !! "mcpServers" = Some (JObj servers)
    ∧ servers !! "test-server" = Some (JObj entry)
    ∧ saved !! "mcpServers" = Some (JObj servers')
    ∧ servers' !! "test-server" = Some (JObj entry')
    ∧ entry' !! "disabled" = Some (JBool true)
    ∧ (∀ field, field ≠ "disabled" → entry' !! field = entry !! field)
    ∧ (∀ other, other ≠ "test-server" → servers' !! other = servers !! other)
    ∧ (∀ key, key ≠ "mcpServers" →
         saved !! key = disk_load (world test_state) !! key).
Proof.
  assert (disable_server "test-server" test_state
          = (Return true, disabled_test_state)) as Hdis
    by (vm_compute; reflexivity).
  exact (disable_server_frame "test-server" test_state disabled_test_state Hdis).
Defined.

Lemma not_found_leaves_file_witness :
  ((disable_server "non-existent" test_state).1 = Return false
   ∧ world (disable_server "non-existent" test_state).2 = world test_state)
  ∧ ((enable_server "non-existent" test_state).1 = Return false
     ∧ world (enable_server "non-existent" test_state).2 = world test_state).
Proof.
  apply (not_found_leaves_file "non-existent" test_state).
  right. exists test_servers. split; reflexivity.
Defined.

Lemma servers_key_at_mutation_witness :
  disk_load bare_disk !! "mcpServers" = Some (JObj ∅)
  ∧ disk_load (world list_state) !! "mcpServers"
    = Some (JArr [JStr "alpha"; JStr "beta"])
  ∧ (∃ v, disk_load (world test_state) !! "mcpServers" = Some v
          ∧ Py.contains "test-server" v = Return true)
  ∧ (∃ servers entry,
       disk_load (world test_state) !! "mcpServers" = Some (JObj servers)
       ∧ servers !! "test-server" = Some (JObj entry)).
Proof.
  destruct servers_key_at_mutation as [Hload Hcalls].
  split.
  { apply (proj1 (proj2 (Hload bare_disk))). reflexivity. }
  split.
  { apply (proj2 (proj2 (Hload (world list_state)))
             {[ "mcpServers" := JArr [JStr "alpha"; JStr "beta"] ]});
      reflexivity. }
  split.
  { apply (proj1 (proj2 (Hcalls disk disk_manager test_state "test-server"))).
    vm_compute. reflexivity. }
  apply (proj2 (proj2 (Hcalls disk disk_manager test_state "test-server"))
           (disk_load (world disabled_test_state))).
  left. vm_compute. reflexivity.
Defined.

(** The claim C7 as it stands fails on a file whose servers key holds a
    list: the loaded document has the key, as that list; the guard finds
    the name in it and lets the call through; the assignment is then
    attempted on the list and raises. *)
Lemma servers_list_reaches_mutation :
  disk_load (world list_state) !! "mcpServers"
  = Some (JArr [JStr "alpha"; JStr "beta"])
  ∧ @server_not_found disk disk_manager (disk_load (world list_state)) "alpha"
    = Return false
  ∧ @set_disabled disk disk_manager (disk_load (world list_state)) "alpha"
    = Raise TypeError
  ∧ disable_server "alpha" list_state = (Raise TypeError, list_state).
Proof. repeat split; vm_compute; reflexivity. Qed.

Lemma config_path_resolution_witness :
  config_path (__init__ linux_host (Some "/custom/path/config.json"))
  = "/custom/path/config.json"
  ∧ config_path (__init__ darwin_host None)
    = "/Users/user/Library/Application Support/Code/User/globalStorage/kilocode.kilo-code/settings/mcp_settings.json"
  ∧ config_path (__init__ windows_host None)
    = "Code/User/globalStorage/kilocode.kilo-code/settings/mcp_settings.json"
  ∧ config_path (__init__ linux_host (Some EmptyString))
    = "/home/user/.config/Code/User/globalStorage/kilocode.kilo-code/settings/mcp_settings.json".
Proof.
  split.
  { apply (proj1 (config_path_resolution linux_host
                    (Some "/custom/path/config.json"))
             "/custom/path/config.json"); [reflexivity|discriminate]. }
  split.
  { etrans;
      [apply (proj1 (proj2 (config_path_resolution darwin_host None)
                       (or_introl eq_refl))); reflexivity|].
    vm_compute. reflexivity. }
  split.
  { etrans;
      [apply (proj1 (proj2 (proj2 (config_path_resolution windows_host None)
                              (or_introl eq_refl)))); reflexivity|].
    vm_compute. reflexivity. }
  etrans;
    [apply (proj2 (proj2 (proj2 (config_path_resolution linux_host
                                   (Some EmptyString))
                            (or_intror eq_refl)))); discriminate|].
  vm_compute. reflexivity.
Defined.

(** The claim C6 as it stands fails on the empty path: given explicitly,
    it is not what the constructor stores. *)
Lemma empty_explicit_path_not_stored :
  config_path (__init__ linux_host (Some EmptyString)) ≠ EmptyString.
Proof. vm_compute. discriminate. Qed.

(** * Further properties of the methods *)

(** ** Documents outside the data model *)

Section Malformed.
Context {W : Type} `{JSONClientManager W}.

Lemma scalar_servers_calls (n : string) (st : state W) (v : json) :
  _load_config (world st) !! configure_key_name = Some v →
  is_scalar v = true →
  disable_server n st = (Raise TypeError, st)
  ∧ enable_server n st = (Raise TypeError, st)
  ∧ is_server_disabled n st = (Raise TypeError, st).
Proof.
  intros Hk Hv. unfold_call.
  unfold server_not_found, Py.dict_contains, Py.dict_getitem. rewrite Hk.
  by destruct v.
Qed.

Lemma sequence_servers_calls (n : string) (st : state W) (v : json)
    (found : bool) :
  _load_config (world st) !! configure_key_name = Some v →
  is_mapping v = false →
  Py.contains n v = Return found →
  if found then
    disable_server n st = (Raise TypeError, st)
    ∧ enable_server n st = (Raise TypeError, st)
    ∧ is_server_disabled n st = (Raise TypeError, st)
  else
    disable_server n st
    = (Return false,
       State (world st)
         (log st ++ ["Server '" +:+ n +:+ "' not found in active servers"]))
    ∧ enable_server n st
      = (Return false,
         State (world st)
           (log st ++ ["Server '" +:+ n +:+ "' not found in configuration"]))
    ∧ is_server_disabled n st = (Return false, st).
Proof.
  intros Hk Hv Hin. unfold_call.
  unfold server_not_found, set_disabled, server_entry,
    Py.dict_contains, Py.dict_getitem.
  rewrite Hk. simpl. rewrite Hin. simpl.
  destruct found; simpl; [|done].
  by destruct v.
Qed.

Lemma odd_entry_calls (n : string) (st : state W)
    (servers : gmap string json) (e : json) :
  _load_config (world st) !! configure_key_name = Some (JObj servers) →
  servers !! n = Some e →
  is_mapping e = false →
  disable_server n st = (Raise TypeError, st)
  ∧ is_server_disabled n st = (Raise AttributeError, st)
  ∧ enable_server n st
    = match Py.contains "disabled" e with
      | Return false =>
          (Return true,
           State (world st)
             (log st ++ ["Server '" +:+ n +:+ "' is not disabled"]))
      | _ => (Raise TypeError, st)
      end.
Proof.
  intros Hk Hn He. unfold_call.
  rewrite (server_not_found_mapping _ _ _ Hk), Hn. simpl.
  unfold set_disabled, del_disabled.
  rewrite (server_entry_mapping _ _ _ Hk), Hn. simpl.
  unfold Py.dict_contains, Py.dict_getitem. rewrite Hk. simpl. rewrite Hn. simpl.
  destruct e as [| | | | s |items|entry]; try done; simpl.
  - by destruct (Py.str_contains "disabled" s).
  - by destruct (existsb (Py.str_eq "disabled") items).
Qed.

(** X1. When the servers key holds [null], a boolean or a number, the test
    [server_name in config[key]] raises [TypeError] in each of the three
    methods; nothing is logged and nothing is saved. *)
Theorem servers_scalar_raises (server_name : string) (st : state W) (v : json) :
  _load_config (world st) !! configure_key_name = Some v →
  is_scalar v = true →
  disable_server server_name st = (Raise TypeError, st)
  ∧ enable_server server_name st = (Raise TypeError, st)
  ∧ is_server_disabled server_name st = (Raise TypeError, st).
Proof. apply scalar_servers_calls. Qed.

(** X2. When the servers key holds a list or a string, [in] is list
    membership or substring search.  A name that is found makes each of
    the three methods raise [TypeError] at [config[key][server_name]]; a
    name that is not found gets the not-found answer.  Nothing is saved
    either way. *)
Theorem servers_sequence_behaviour (server_name : string) (st : state W)
    (v : json) (found : bool) :
  _load_config (world st) !! configure_key_name = Some v →
  is_mapping v = false →
  Py.contains server_name v = Return found →
  if found then
    disable_server server_name st = (Raise TypeError, st)
    ∧ enable_server server_name st = (Raise TypeError, st)
    ∧ is_server_disabled server_name st = (Raise TypeError, st)
  else
    disable_server server_name st
    = (Return false,
       State (world st)
         (log st ++ ["Server '" +:+ server_name +:+ "' not found in active servers"]))
    ∧ enable_server server_name st
      = (Return false,
         State (world st)
           (log st ++ ["Server '" +:+ server_name +:+ "' not found in configuration"]))
    ∧ is_server_disabled server_name st = (Return false, st).
Proof. apply sequence_servers_calls. Qed.

(** X3. When the name is a key of the servers mapping and its entry is not a
    mapping: [disable_server] raises [TypeError] at the assignment,
    [is_server_disabled] raises [AttributeError] at [.get], and
    [enable_server] returns [True] with its warning when
    ["disabled" in entry] is false (a list or string without it) and
    raises [TypeError] otherwise.  None of them saves. *)
Theorem entry_not_mapping_behaviour (server_name : string) (st : state W)
    (servers : gmap string json) (e : json) :
  _load_config (world st) !! configure_key_name = Some (JObj servers) →
  servers !! server_name = Some e →
  is_mapping e = false →
  disable_server server_name st = (Raise TypeError, st)
  ∧ is_server_disabled server_name st = (Raise AttributeError, st)
  ∧ enable_server server_name st
    = match Py.contains "disabled" e with
      | Return false =>
          (Return true,
           State (world st)
             (log st ++ ["Server '" +:+ server_name +:+ "' is not disabled"]))
      | _ => (Raise TypeError, st)
      end.
Proof. apply odd_entry_calls. Qed.

End Malformed.

(** ** Single calls *)

Section SingleCalls.
Context {W : Type} `{JSONClientManager W}.

(** X4. On the empty template of [_get_empty_config] no name is found:
    [disable_server] and [enable_server] return [False] after their
    warning and save nothing, and [is_server_disabled] returns [False]. *)
Theorem empty_template_behaviour (server_name : string) (st : state W) :
  _load_config (world st) = _get_empty_config →
  disable_server server_name st
  = (Return false,
     State (world st)
       (log st ++ ["Server '" +:+ server_name +:+ "' not found in active servers"]))
  ∧ enable_server server_name st
    = (Return false,
       State (world st)
         (log st ++ ["Server '" +:+ server_name +:+ "' not found in configuration"]))
  ∧ is_server_disabled server_name st = (Return false, st).
Proof.
  intros Hload.
  assert (not_listed (_load_config (world st)) server_name) as Hnl.
  { right. exists ∅. rewrite Hload. unfold _get_empty_config, empty_config.
    by rewrite lookup_singleton_eq, lookup_empty. }
  by rewrite (disable_server_not_listed _ _ Hnl),
    (enable_server_not_listed _ _ Hnl), (is_server_disabled_not_listed _ _ Hnl).
Qed.

(** The ways in which [enable_server] returns [True]: without saving,
    after its warning, and then from any log and with a predicate that
    does not return [True]; or by saving the document without the
    marker, and then without a warning. *)
Lemma enable_server_success (n : string) (st st' : state W) :
  enable_server n st = (Return true, st') →
  (st' = State (world st) (log st ++ ["Server '" +:+ n +:+ "' is not disabled"])
   ∧ (is_server_disabled n st).1 ≠ Return true
   ∧ ∀ l, enable_server n (State (world st) l)
          = (Return true,
             State (world st) (l ++ ["Server '" +:+ n +:+ "' is not disabled"])))
  ∨ ∃ servers entry marker,
      _load_config (world st) !! configure_key_name = Some (JObj servers)
      ∧ servers !! n = Some (JObj entry)
      ∧ entry !! "disabled" = Some marker
      ∧ _save_config
          (<[configure_key_name :=
              JObj (<[n := JObj (delete "disabled" entry)]> servers)]>
             (_load_config (world st)))
          (world st)
        = (Return true, world st')
      ∧ log st' = log st.
Proof.
  destruct (_load_config (world st) !! configure_key_name) as [v|] eqn:Hk.
  - destruct (is_mapping v) eqn:Hv.
    + destruct v as [| | | | | |servers]; try discriminate.
      destruct (servers !! n) as [e|] eqn:Hn.
      * destruct (is_mapping e) eqn:He.
        -- destruct e as [| | | | | |entry]; try discriminate.
           destruct (entry !! "disabled") as [marker|] eqn:Hd.
           ++ rewrite (enable_server_marked _ _ _ _ _ Hk Hn Hd).
              destruct (_save_config _ (world st)) as [r w'] eqn:Hs.
              intros [= -> <-]. right. exists servers, entry, marker.
              by rewrite Hs.
           ++ rewrite (enable_server_unmarked _ _ _ _ Hk Hn Hd).
              intros [= <-]. left. split; [done|]. split.
              ** rewrite (is_server_disabled_listed _ _ _ _ Hk Hn), Hd. done.
              ** intros l.
                 by rewrite (enable_server_unmarked n (State (world st) l)
                               _ _ Hk Hn Hd).
        -- destruct (odd_entry_calls n st servers e Hk Hn He) as (_ & Hp & Hen).
           rewrite Hen.
           destruct (Py.contains "disabled" e) as [[|]|] eqn:Hc; try (intros [=]; fail).
           intros [= <-]. left. split; [done|]. split; [by rewrite Hp|].
           intros l.
           destruct (odd_entry_calls n (State (world st) l) servers e Hk Hn He)
             as (_ & _ & Hen').
           by rewrite Hen', Hc.
      * rewrite enable_server_not_listed; [intros [=]|]. right. by exists servers.
    + destruct (Py.contains n v) as [found|err] eqn:Hc.
      * pose proof (sequence_servers_calls n st v found Hk Hv Hc) as Hcalls.
        destruct found; destruct Hcalls as (_ & -> & _); intros [=].
      * assert (is_scalar v = true) as Hs by (by destruct v).
        destruct (scalar_servers_calls n st v Hk Hs) as (_ & -> & _).
        intros [=].
  - rewrite enable_server_not_listed; [intros [=]|]. by left.
Qed.

(** X5. A successful [enable_server(name)] either saved nothing, or saved a
    document that differs from the loaded one in the named entry only,
    which has lost its [disabled] key and keeps every other field; every
    other entry and every other key of the document is as loaded. *)
Theorem enable_server_frame (server_name : string) (st st' : state W) :
  enable_server server_name st = (Return true, st') →
  world st' = world st
  ∨ ∃ (saved : config) (servers servers' entry entry' : gmap string json),
      _save_config saved (world st) = (Return true, world st')
      ∧ _load_config (world st) !! configure_key_name = Some (JObj servers)
      ∧ servers !! server_name = Some (JObj entry)
      ∧ saved !! configure_key_name = Some (JObj servers')
      ∧ servers' !! server_name = Some (JObj entry')
      ∧ entry' !! "disabled" = None
      ∧ (∀ field, field ≠ "disabled" → entry' !! field = entry !! field)
      ∧ (∀ other, other ≠ server_name → servers' !! other = servers !! other)
      ∧ (∀ key, key ≠ configure_key_name →
           saved !! key = _load_config (world st) !! key).
Proof.
  intros Hrun.
  destruct (enable_server_success _ _ _ Hrun)
    as [[-> _] | (servers & entry & marker & Hk & Hn & Hd & Hs & _)];
    [by left|right].
  eexists _, servers, _, entry, _. split; [exact Hs|].
  split; [exact Hk|]. split; [exact Hn|].
  split; [apply lookup_insert_eq|]. split; [apply lookup_insert_eq|].
  split; [apply lookup_delete_eq|].
  split; [|split]; intros x Hx;
    by rewrite ?lookup_insert_ne, ?lookup_delete_ne.
Qed.

(** X6. On an entry that is already disabled, [disable_server(name)] still
    saves: it hands to [_save_config] the very document it loaded, and
    returns what the save returns. *)
Theorem disable_server_already_disabled (server_name : string) (st : state W)
    (servers entry : gmap string json) :
  _load_config (world st) !! configure_key_name = Some (JObj servers) →
  servers !! server_name = Some (JObj entry) →
  entry !! "disabled" = Some (JBool true) →
  disable_server server_name st
  = let (r, w') := _save_config (_load_config (world st)) (world st) in
    (r, State w' (log st)).
Proof.
  intros Hk Hn Hd. rewrite (disable_server_listed _ _ _ _ Hk Hn).
  by rewrite (insert_id entry _ _ Hd), (insert_id servers _ _ Hn),
    (insert_id _ _ _ Hk).
Qed.

End SingleCalls.

(** ** Composing the calls *)

Section Composition.
Context {W : Type} `{JSONClientManager W} `{!ReliableStore W}.

Lemma is_server_disabled_same_load (n : string) (st st' : state W) :
  _load_config (world st) = _load_config (world st') →
  (is_server_disabled n st).1 = (is_server_disabled n st').1.
Proof. unfold_call. by intros ->. Qed.

Lemma is_server_disabled_mapping (n : string) (st : state W) servers :
  _load_config (world st) !! configure_key_name = Some (JObj servers) →
  (is_server_disabled n st).1
  = match servers !! n with
    | None => Return false
    | Some e =>
        marker ← Py.get e "disabled" (JBool false); Return (Py.is_True marker)
    end.
Proof.
  intros Hk. unfold_call. unfold Py.dict_contains, Py.dict_getitem.
  rewrite Hk. simpl. by destruct (servers !! n).
Qed.

(** X7. After an [enable_server(name)] that returned [True],
    [is_server_disabled(name)] does not return [True], whatever the
    entry was. *)
Theorem enabled_is_not_disabled (server_name : string) (st st' : state W) :
  enable_server server_name st = (Return true, st') →
  (is_server_disabled server_name st').1 ≠ Return true.
Proof.
  intros Hrun.
  destruct (enable_server_success _ _ _ Hrun)
    as [(-> & Hp & _) | (servers & entry & marker & Hk & Hn & Hd & Hs & _)].
  - by rewrite (is_server_disabled_same_load server_name _ st).
  - apply load_after_save in Hs; [|by rewrite lookup_insert_eq].
    assert (Hk' := f_equal (λ c : config, c !! configure_key_name) Hs).
    simpl in Hk'. rewrite lookup_insert_eq in Hk'.
    rewrite (is_server_disabled_listed _ _ _ _ Hk' (lookup_insert_eq _ _ _)).
    by rewrite lookup_delete_eq.
Qed.

(** X8. Disabling an active entry and enabling it again, both with success,
    gives back the document that was loaded before the two calls. *)
Theorem disable_enable_restores_document (server_name : string)
    (st st1 st2 : state W) (servers entry : gmap string json) :
  _load_config (world st) !! configure_key_name = Some (JObj servers) →
  servers !! server_name = Some (JObj entry) →
  entry !! "disabled" = None →
  disable_server server_name st = (Return true, st1) →
  enable_server server_name st1 = (Return true, st2) →
  _load_config (world st2) = _load_config (world st).
Proof.
  intros Hk Hn Hd Hdis.
  rewrite (disable_server_listed _ _ _ _ Hk Hn) in Hdis.
  destruct (_save_config _ (world st)) as [r w1] eqn:Hs.
  injection Hdis as -> <-.
  apply load_after_save in Hs; [|by rewrite lookup_insert_eq].
  assert (Hk1 := f_equal (λ c : config, c !! configure_key_name) Hs).
  simpl in Hk1. rewrite lookup_insert_eq in Hk1.
  rewrite (enable_server_marked server_name (State w1 (log st)) _ _
             (JBool true) Hk1
             (lookup_insert_eq _ _ _) (lookup_insert_eq _ _ _)).
  simpl. destruct (_save_config _ w1) as [r w2] eqn:Hs2.
  intros [= -> <-]. simpl.
  apply load_after_save in Hs2; [|by rewrite lookup_insert_eq].
  rewrite Hs2, Hs.
  rewrite (delete_insert_id entry _ _ Hd), !insert_insert_eq.
  by rewrite (insert_id servers _ _ Hn), (insert_id _ _ _ Hk).
Qed.

(** X9. After an [enable_server(name)] that returned [True], a second one
    returns [True] as well, saves nothing and logs that the server is
    not disabled. *)
Theorem enable_server_twice (server_name : string) (st st1 : state W) :
  enable_server server_name st = (Return true, st1) →
  enable_server server_name st1
  = (Return true,
     State (world st1)
       (log st1 ++ ["Server '" +:+ server_name +:+ "' is not disabled"])).
Proof.
  intros Hrun.
  destruct (enable_server_success _ _ _ Hrun)
    as [(-> & _ & Hany) | (servers & entry & marker & Hk & Hn & Hd & Hs & _)].
  - apply Hany.
  - apply load_after_save in Hs; [|by rewrite lookup_insert_eq].
    assert (Hk' := f_equal (λ c : config, c !! configure_key_name) Hs).
    simpl in Hk'. rewrite lookup_insert_eq in Hk'.
    apply (enable_server_unmarked _ _ _ _ Hk' (lookup_insert_eq _ _ _)).
    apply lookup_delete_eq.
Qed.

(** A call on a document whose servers key is missing or holds something
    else than a mapping saves nothing. *)
Lemma perform_unshaped (c : call) (st : state W) :
  _load_config (world st) !! configure_key_name = None
  ∨ (∃ v, _load_config (world st) !! configure_key_name = Some v
          ∧ is_mapping v = false) →
  world (perform c st).2 = world st.
Proof.
  intros [Hk | (v & Hk & Hv)].
  - destruct c as [n|n]; unfold perform.
    + rewrite disable_server_not_listed; [done|by left].
    + rewrite enable_server_not_listed; [done|by left].
  - destruct (Py.contains (call_target c) v) as [found|err] eqn:Hc.
    + pose proof (sequence_servers_calls _ st v found Hk Hv Hc) as Hcalls.
      destruct c as [n|n], found; unfold perform, call_target in *;
        destruct Hcalls as (Hd & He & _); by rewrite ?Hd, ?He.
    + assert (is_scalar v = true) as Hs by (by destruct v).
      destruct (scalar_servers_calls (call_target c) st v Hk Hs) as (Hd & He & _).
      destruct c as [n|n]; unfold perform, call_target in *;
        by rewrite ?Hd, ?He.
Qed.

(** What a call does to the document the next load returns, on any
    document: nothing, or it replaces the entry of its target by the
    entry with the marker set or deleted. *)
Lemma perform_step (c : call) (st : state W) :
  _load_config (world (perform c st).2) = _load_config (world st)
  ∨ ∃ servers entry entry',
      _load_config (world st) !! configure_key_name = Some (JObj servers)
      ∧ servers !! call_target c = Some (JObj entry)
      ∧ (entry' = <["disabled" := JBool true]> entry
         ∨ entry' = delete "disabled" entry)
      ∧ _load_config (world (perform c st).2)
        = <[configure_key_name :=
             JObj (<[call_target c := JObj entry']> servers)]>
            (_load_config (world st)).
Proof.
  destruct (_load_config (world st) !! configure_key_name) as [v|] eqn:Hk.
  - destruct (is_mapping v) eqn:Hv.
    + destruct v as [| | | | | |servers]; try discriminate.
      destruct (perform_document c st servers Hk)
        as [Hsame | (n & entry & Hn & [[-> Hl] | [-> Hl]])]; [by left|right..];
        exists servers, entry; eexists; simpl; (split; [done|]);
        (split; [exact Hn|]); (split; [|exact Hl]); [by left|by right].
    + left. f_equal. apply perform_unshaped. right. by exists v.
  - left. f_equal. apply perform_unshaped. by left.
Qed.

(** X10. A call that names another server leaves what
    [is_server_disabled(name)] returns or raises as it was. *)
Theorem other_server_untouched (server_name : string) (c : call) (st : state W) :
  call_target c ≠ server_name →
  (is_server_disabled server_name (perform c st).2).1
  = (is_server_disabled server_name st).1.
Proof.
  intros Hne.
  destruct (perform_step c st)
    as [Hsame | (servers & entry & entry' & Hk & Hn & _ & Hl)].
  - by apply is_server_disabled_same_load.
  - assert (Hk' := f_equal (λ cfg : config, cfg !! configure_key_name) Hl).
    simpl in Hk'. rewrite lookup_insert_eq in Hk'.
    rewrite (is_server_disabled_mapping _ _ _ Hk'),
      (is_server_disabled_mapping _ _ _ Hk).
    by rewrite lookup_insert_ne.
Qed.

Lemma erase_markers_updated (cfg : config) servers n entry entry' :
  cfg !! configure_key_name = Some (JObj servers) →
  servers !! n = Some (JObj entry) →
  entry' = <["disabled" := JBool true]> entry
  ∨ entry' = delete "disabled" entry →
  erase_markers configure_key_name
    (<[configure_key_name := JObj (<[n := JObj entry']> servers)]> cfg)
  = erase_markers configure_key_name cfg.
Proof.
  intros Hk Hn Hentry. unfold erase_markers.
  rewrite lookup_insert_eq, Hk, insert_insert_eq, fmap_insert. simpl.
  do 2 f_equal.
  assert (delete "disabled" entry' = delete "disabled" entry) as ->.
  { destruct Hentry as [-> | ->];
      [apply delete_insert_eq|apply delete_delete_eq]. }
  apply insert_id. by rewrite lookup_fmap, Hn.
Qed.

Lemma perform_erase_markers (c : call) (st : state W) :
  erase_markers configure_key_name (_load_config (world (perform c st).2))
  = erase_markers configure_key_name (_load_config (world st)).
Proof.
  destruct (perform_step c st)
    as [-> | (servers & entry & entry' & Hk & Hn & Hentry & ->)]; [done|].
  by apply (erase_markers_updated _ _ _ entry).
Qed.

(** X11. Whatever the sequence of [disable_server] and [enable_server] calls,
    the document the next load returns is the one before the calls up to
    the [disabled] keys of the entries: no server is added, removed or
    renamed, no other field of an entry and no other key of the document
    changes. *)
Theorem calls_change_markers_only (calls : list call) (st : state W) :
  erase_markers configure_key_name (_load_config (world (run_calls calls st)))
  = erase_markers configure_key_name (_load_config (world st)).
Proof.
  revert st. induction calls as [|c rest IH]; intros st; simpl; [done|].
  by rewrite IH, perform_erase_markers.
Qed.

Lemma perform_dom (c : call) (st : state W) servers :
  _load_config (world st) !! configure_key_name = Some (JObj servers) →
  ∃ servers',
    _load_config (world (perform c st).2) !! configure_key_name
    = Some (JObj servers')
    ∧ dom servers' = dom servers.
Proof.
  intros Hk.
  destruct (perform_step c st)
    as [-> | (servers0 & entry & entry' & Hk0 & Hn & _ & ->)];
    [by exists servers|].
  rewrite Hk in Hk0. injection Hk0 as <-.
  eexists. split; [apply lookup_insert_eq|].
  apply dom_insert_lookup_L. by rewrite Hn.
Qed.

(** X12. Whatever the sequence of calls, the servers mapping keeps its set of
    server names. *)
Theorem calls_keep_server_names (calls : list call) (st : state W)
    (servers : gmap string json) :
  _load_config (world st) !! configure_key_name = Some (JObj servers) →
  ∃ servers',
    _load_config (world (run_calls calls st)) !! configure_key_name
    = Some (JObj servers')
    ∧ dom servers' = dom servers.
Proof.
  revert st servers.
  induction calls as [|c rest IH]; intros st servers Hk; simpl;
    [by exists servers|].
  destruct (perform_dom c st servers Hk) as (servers1 & Hk1 & Hdom1).
  destruct (IH _ _ Hk1) as (servers' & Hk' & Hdom').
  exists servers'. split; [done|]. by rewrite Hdom', Hdom1.
Qed.

Lemma data_model_intro (cfg : config) servers :
  cfg !! configure_key_name = Some (JObj servers) →
  (∀ n e, servers !! n = Some e → is_mapping e = true) →
  data_model configure_key_name cfg = true.
Proof.
  intros Hk Hall. unfold data_model. rewrite Hk.
  apply forallb_forall. intros [n e] Hin. simpl.
  apply list_elem_of_In, elem_of_map_to_list in Hin. by apply (Hall n).
Qed.

Lemma perform_data_model (c : call) (st : state W) :
  data_model configure_key_name (_load_config (world st)) = true →
  data_model configure_key_name (_load_config (world (perform c st).2)) = true.
Proof.
  intros Hdm.
  destruct (perform_step c st)
    as [-> | (servers & entry & entry' & Hk & Hn & _ & ->)]; [done|].
  destruct (data_model_shape _ Hdm) as [Hnone | (servers0 & Hk0 & Hall)];
    [by rewrite Hk in Hnone|].
  rewrite Hk in Hk0. injection Hk0 as <-.
  eapply data_model_intro; [apply lookup_insert_eq|].
  intros n e. rewrite lookup_insert. case_decide.
  - by intros [= <-].
  - intros Hn'. by destruct (Hall _ _ Hn') as [? ->].
Qed.

(** X13. Whatever the sequence of calls, a document of the data model stays
    one: the servers key holds a mapping and every entry is a mapping. *)
Theorem calls_keep_data_model (calls : list call) (st : state W) :
  data_model configure_key_name (_load_config (world st)) = true →
  data_model configure_key_name
    (_load_config (world (run_calls calls st))) = true.
Proof.
  revert st. induction calls as [|c rest IH]; intros st Hdm; simpl; [done|].
  by apply IH, perform_data_model.
Qed.

Lemma disable_server_document (n : string) (st st' : state W) servers :
  _load_config (world st) !! configure_key_name = Some (JObj servers) →
  disable_server n st = (Return true, st') →
  ∃ entry,
    servers !! n = Some (JObj entry)
    ∧ _load_config (world st')
      = <[configure_key_name :=
           JObj (<[n := JObj (<["disabled" := JBool true]> entry)]> servers)]>
          (_load_config (world st)).
Proof.
  intros Hk Hrun.
  destruct (disable_server_success _ _ _ Hrun)
    as (servers0 & entry & Hk0 & Hn & Hs & _).
  rewrite Hk in Hk0. injection Hk0 as <-.
  exists entry. split; [done|].
  apply (load_after_save _ _ _ Hs). by rewrite lookup_insert_eq.
Qed.

(** X14. Two servers can be disabled in either order: when the four calls
    return [True], the document the next load returns is the same. *)
Theorem disable_server_commutes (a b : string) (st s1 s2 t1 t2 : state W) :
  a ≠ b →
  disable_server a st = (Return true, s1) →
  disable_server b s1 = (Return true, s2) →
  disable_server b st = (Return true, t1) →
  disable_server a t1 = (Return true, t2) →
  _load_config (world s2) = _load_config (world t2).
Proof.
  intros Hab Ha1 Hb2 Hb1 Ha2.
  destruct (disable_server_success _ _ _ Ha1) as (servers & ea & Hk & Ha & _).
  destruct (disable_server_document _ _ _ _ Hk Ha1) as (ea' & Ha' & Ls1).
  destruct (disable_server_document _ _ _ _ Hk Hb1) as (eb & Hb & Lt1).
  rewrite Ha in Ha'. injection Ha' as <-.
  assert (Hk1 := f_equal (λ c : config, c !! configure_key_name) Ls1).
  assert (Hk2 := f_equal (λ c : config, c !! configure_key_name) Lt1).
  simpl in Hk1, Hk2. rewrite lookup_insert_eq in Hk1, Hk2.
  destruct (disable_server_document _ _ _ _ Hk1 Hb2) as (eb' & Hb' & ->).
  destruct (disable_server_document _ _ _ _ Hk2 Ha2) as (ea' & Ha' & ->).
  rewrite lookup_insert_ne in Hb' by done.
  rewrite lookup_insert_ne in Ha' by done.
  rewrite Hb in Hb'. injection Hb' as <-.
  rewrite Ha in Ha'. injection Ha' as <-.
  rewrite Ls1, Lt1, !insert_insert_eq. do 2 f_equal.
  by apply insert_insert_ne.
Qed.

End Composition.

(** * The further properties on concrete documents *)

Lemma servers_scalar_raises_witness :
  disable_server "alpha" scalar_state = (Raise TypeError, scalar_state)
  ∧ enable_server "alpha" scalar_state = (Raise TypeError, scalar_state)
  ∧ is_server_disabled "alpha" scalar_state = (Raise TypeError, scalar_state).
Proof.
  apply (servers_scalar_raises "alpha" scalar_state (JInt 5)); reflexivity.
Defined.

Lemma servers_sequence_behaviour_witness :
  (disable_server "alpha" list_state = (Raise TypeError, list_state)
   ∧ enable_server "alpha" list_state = (Raise TypeError, list_state)
   ∧ is_server_disabled "alpha" list_state = (Raise TypeError, list_state))
  ∧ (disable_server "gamma" list_state
     = (Return false,
        State (world list_state)
          (log list_state ++ ["Server 'gamma' not found in active servers"]))
     ∧ enable_server "gamma" list_state
       = (Return false,
          State (world list_state)
            (log list_state ++ ["Server 'gamma' not found in configuration"]))
     ∧ is_server_disabled "gamma" list_state = (Return false, list_state)).
Proof.
  split.
  - exact (servers_sequence_behaviour "alpha" list_state
             (JArr [JStr "alpha"; JStr "beta"]) true eq_refl eq_refl eq_refl).
  - exact (servers_sequence_behaviour "gamma" list_state
             (JArr [JStr "alpha"; JStr "beta"]) false eq_refl eq_refl eq_refl).
Defined.

Lemma entry_not_mapping_behaviour_witness :
  (disable_server "empty" odd_state = (Raise TypeError, odd_state)
   ∧ is_server_disabled "empty" odd_state = (Raise AttributeError, odd_state)
   ∧ enable_server "empty" odd_state
     = (Return true,
        State (world odd_state)
          (log odd_state ++ ["Server 'empty' is not disabled"])))
  ∧ enable_server "words" odd_state = (Raise TypeError, odd_state)
  ∧ enable_server "text" odd_state = (Raise TypeError, odd_state)
  ∧ enable_server "number" odd_state = (Raise TypeError, odd_state).
Proof.
  split.
  { exact (entry_not_mapping_behaviour "empty" odd_state odd_servers (JArr [])
             eq_refl eq_refl eq_refl). }
  split.
  { exact (proj2 (proj2 (entry_not_mapping_behaviour "words" odd_state
                           odd_servers (JArr [JStr "disabled"])
                           eq_refl eq_refl eq_refl))). }
  split.
  { exact (proj2 (proj2 (entry_not_mapping_behaviour "text" odd_state
                           odd_servers (JStr "not disabled yet")
                           eq_refl eq_refl eq_refl))). }
  exact (proj2 (proj2 (entry_not_mapping_behaviour "number" odd_state
                         odd_servers (JInt 5) eq_refl eq_refl eq_refl))).
Defined.

Lemma empty_template_behaviour_witness :
  disable_server "test-server" missing_state
  = (Return false,
     State (world missing_state)
       (log missing_state ++ ["Server 'test-server' not found in active servers"]))
  ∧ enable_server "test-server" missing_state
    = (Return false,
       State (world missing_state)
         (log missing_state ++ ["Server 'test-server' not found in configuration"]))
  ∧ is_server_disabled "test-server" missing_state = (Return false, missing_state).
Proof.
  apply (empty_template_behaviour "test-server" missing_state). reflexivity.
Defined.

Lemma enable_server_frame_witness :
  world enabled_off_state = world marked_state
  ∨ ∃ (saved : config) (servers servers' entry entry' : gmap string json),
      _save_config saved (world marked_state)
      = (Return true, world enabled_off_state)
      ∧ _load_config (world marked_state) !! configure_key_name
        = Some (JObj servers)
      ∧ servers !! "off" = Some (JObj entry)
      ∧ saved !! configure_key_name = Some (JObj servers')
      ∧ servers' !! "off" = Some (JObj entry')
      ∧ entry' !! "disabled" = None
      ∧ (∀ field, field ≠ "disabled" → entry' !! field = entry !! field)
      ∧ (∀ other, other ≠ "off" → servers' !! other = servers !! other)
      ∧ (∀ key, key ≠ configure_key_name →
           saved !! key = _load_config (world marked_state) !! key).
Proof.
  assert (enable_server "off" marked_state = (Return true, enabled_off_state))
    as Hen by (vm_compute; reflexivity).
  exact (enable_server_frame "off" marked_state enabled_off_state Hen).
Defined.

Lemma disable_server_already_disabled_witness :
  disable_server "beta" two_state = (Return true, two_state).
Proof.
  etrans;
    [apply (disable_server_already_disabled "beta" two_state
              two_servers beta_entry); reflexivity|].
  vm_compute. reflexivity.
Defined.

Lemma enabled_is_not_disabled_witness :
  enable_server "off" marked_state = (Return true, enabled_off_state)
  ∧ (is_server_disabled "off" enabled_off_state).1 ≠ Return true.
Proof.
  assert (enable_server "off" marked_state = (Return true, enabled_off_state))
    as Hen by (vm_compute; reflexivity).
  split; [exact Hen|].
  exact (enabled_is_not_disabled "off" marked_state enabled_off_state Hen).
Defined.

Lemma disable_enable_restores_document_witness :
  _load_config (world reenabled_test_state) = _load_config (world test_state).
Proof.
  apply (disable_enable_restores_document "test-server" test_state
           disabled_test_state reenabled_test_state test_servers test_entry);
    vm_compute; reflexivity.
Defined.

Lemma enable_server_twice_witness :
  enable_server "test-server" reenabled_test_state
  = (Return true,
     State (world reenabled_test_state)
       (log reenabled_test_state ++ ["Server 'test-server' is not disabled"])).
Proof.
  apply (enable_server_twice "test-server" disabled_test_state
           reenabled_test_state).
  vm_compute. reflexivity.
Defined.

Lemma other_server_untouched_witness :
  (is_server_disabled "beta" (perform (DisableServer "alpha") two_state).2).1
  = (is_server_disabled "beta" two_state).1.
Proof.
  apply (other_server_untouched "beta" (DisableServer "alpha") two_state).
  discriminate.
Defined.

Lemma calls_change_markers_only_witness :
  erase_markers "mcpServers" (disk_load (world (run_calls two_calls two_state)))
  = erase_markers "mcpServers" (disk_load (world two_state)).
Proof. exact (calls_change_markers_only two_calls two_state). Defined.

Lemma calls_keep_server_names_witness :
  ∃ servers',
    disk_load (world (run_calls two_calls two_state)) !! "mcpServers"
    = Some (JObj servers')
    ∧ dom servers' = dom two_servers.
Proof.
  exact (calls_keep_server_names two_calls two_state two_servers eq_refl).
Defined.

Lemma calls_keep_data_model_witness :
  data_model "mcpServers" (disk_load (world (run_calls two_calls two_state)))
  = true.
Proof.
  exact (calls_keep_data_model two_calls two_state eq_refl).
Defined.

Lemma disable_server_commutes_witness :
  _load_config
    (world (disable_server "beta" (disable_server "alpha" two_state).2).2)
  = _load_config
      (world (disable_server "alpha" (disable_server "beta" two_state).2).2).
Proof.
  apply (disable_server_commutes "alpha" "beta" two_state
           (disable_server "alpha" two_state).2 _
           (disable_server "beta" two_state).2 _);
    [discriminate|vm_compute; reflexivity..].
Defined.
